(** * Transformation pipeline and quality gate of the financial ETL

    A shallow embedding of [src/transform.py] (classes [DataTransformer]
    and [DataQualityChecker]) and the properties of its natural-language
    specification.

    A pandas [DataFrame] is a list of column labels together with the rows
    in order; a row maps a column label to its cell.  Cells are Python
    values: the null of pandas ([None], [NaN], [NaT]), strings, finite
    numbers (as exact rationals), the two float infinities and naive
    timestamps (nanoseconds since the epoch).  Code that can raise returns
    in an error monad; the two attributes the classes mutate
    ([quality_report] and [quality_issues]) are passed explicitly. *)

From Stdlib Require Import ZArith QArith Lia Lqa String Ascii List Bool.
From stdpp Require Import base decidable option list gmap strings.

Local Open Scope string_scope.
Local Open Scope list_scope.
Local Open Scope Z_scope.

(** ** Python values held in cells *)

Inductive value : Type :=
| Null                      (* None / NaN / NaT: what [isnull] answers True on *)
| Str (s : string)
| Num (q : Q)               (* a finite int or float *)
| Inf (negative : bool)     (* float('inf'), float('-inf') *)
| Timestamp (ns : Z).       (* naive datetime, nanoseconds since 1970-01-01 *)

#[global] Instance value_inhabited : Inhabited value := populate Null.

Definition Qlt_bool (x y : Q) : bool := negb (Qle_bool y x).

Definition isnull (v : value) : bool :=
  match v with Null => true | _ => false end.

Definition notna (v : value) : bool := negb (isnull v).

(** [==] of Python on two cells, with the convention of pandas that two
    nulls are the same key ([duplicated], [isin]). *)
Definition value_eqb (v w : value) : bool :=
  match v, w with
  | Null, Null => true
  | Str s, Str t => String.eqb s t
  | Num p, Num q => Qeq_bool p q
  | Inf a, Inf b => Bool.eqb a b
  | Timestamp a, Timestamp b => Z.eqb a b
  | _, _ => false
  end.

(** Comparisons of a numeric cell with a finite constant; a comparison
    with a null (or with a cell of another type) is False. *)
Definition gt_num (v : value) (c : Q) : bool :=
  match v with
  | Num q => Qlt_bool c q
  | Inf negative => negb negative
  | _ => false
  end.

Definition le_num (v : value) (c : Q) : bool :=
  match v with
  | Num q => Qle_bool q c
  | Inf negative => negative
  | _ => false
  end.

Definition le_ts (v : value) (t : Z) : bool :=
  match v with Timestamp ns => ns <=? t | _ => false end.

Definition ge_ts (v : value) (t : Z) : bool :=
  match v with Timestamp ns => t <=? ns | _ => false end.

Definition isin (vs : list value) (v : value) : bool :=
  existsb (value_eqb v) vs.

Definition add_num (v : value) (k : Q) : value :=
  match v with
  | Num q => Num (q + k)
  | _ => v
  end.

(** ** [str.strip], [str.upper], [str.lower] on ASCII text *)

Definition is_space (a : ascii) : bool :=
  let n := N_of_ascii a in
  ((9 <=? n) && (n <=? 13) || (28 <=? n) && (n <=? 32))%N.

Definition upper_ascii (a : ascii) : ascii :=
  let n := N_of_ascii a in
  if ((97 <=? n) && (n <=? 122))%N then ascii_of_N (n - 32) else a.

Definition lower_ascii (a : ascii) : ascii :=
  let n := N_of_ascii a in
  if ((65 <=? n) && (n <=? 90))%N then ascii_of_N (n + 32) else a.

Fixpoint map_string (f : ascii -> ascii) (s : string) : string :=
  match s with
  | EmptyString => EmptyString
  | String a s' => String (f a) (map_string f s')
  end.

Definition upper : string -> string := map_string upper_ascii.
Definition lower : string -> string := map_string lower_ascii.

Fixpoint lstrip (s : string) : string :=
  match s with
  | EmptyString => EmptyString
  | String a s' => if is_space a then lstrip s' else s
  end.

Fixpoint rstrip (s : string) : string :=
  match s with
  | EmptyString => EmptyString
  | String a s' =>
      match rstrip s' with
      | EmptyString => if is_space a then EmptyString else String a EmptyString
      | t => String a t
      end
  end.

Definition strip (s : string) : string := rstrip (lstrip s).

(** ** Calendar components of a timestamp ([Series.dt]) *)

Definition ns_per_hour : Z := 3600 * 1000000000.
Definition ns_per_day : Z := 24 * ns_per_hour.

Definition days_of (ns : Z) : Z := ns / ns_per_day.

(** Proleptic Gregorian date of a day number counted from 1970-01-01. *)
Definition civil_from_days (d : Z) : Z * Z * Z :=
  let z := d + 719468 in
  let era := z / 146097 in
  let doe := z - era * 146097 in
  let yoe := (doe - doe / 1460 + doe / 36524 - doe / 146096) / 365 in
  let doy := doe - (365 * yoe + yoe / 4 - yoe / 100) in
  let mp := (5 * doy + 2) / 153 in
  let day := doy - (153 * mp + 2) / 5 + 1 in
  let month := if mp <? 10 then mp + 3 else mp - 9 in
  let year := yoe + era * 400 + (if month <=? 2 then 1 else 0) in
  (year, month, day).

Definition dt (component : Z -> Z) (v : value) : value :=
  match v with
  | Timestamp ns => Num (inject_Z (component ns))
  | _ => Null
  end.

Definition year_of (ns : Z) : Z := fst (fst (civil_from_days (days_of ns))).
Definition month_of (ns : Z) : Z := snd (fst (civil_from_days (days_of ns))).
Definition day_of (ns : Z) : Z := snd (civil_from_days (days_of ns)).
(** Monday is 0; 1970-01-01 was a Thursday. *)
Definition dayofweek_of (ns : Z) : Z := (days_of ns + 3) mod 7.
Definition hour_of (ns : Z) : Z := (ns / ns_per_hour) mod 24.

(** ** [pd.cut] with right-closed bins: the label of the first bin
    [(lo, hi]] holding the value, null when no bin holds it. *)

Inductive edge : Type := Finite (q : Q) | PlusInf.

Definition above (lo : Q) (v : value) : bool := gt_num v lo.

Definition upto (hi : edge) (v : value) : bool :=
  match hi, v with
  | Finite h, _ => le_num v h
  | PlusInf, Num _ => true
  | PlusInf, Inf _ => true
  | PlusInf, _ => false
  end.

Fixpoint cut_from (lo : Q) (bins : list (edge * string)) (v : value) : value :=
  match bins with
  | [] => Null
  | (hi, label) :: rest =>
      if above lo v && upto hi v then Str label
      else match hi with
           | Finite h => cut_from h rest v
           | PlusInf => Null
           end
  end.

(** ** Data frames *)

Abbreviation row := (gmap string value).

Record DataFrame : Type := mkDataFrame {
  columns : list string;
  rows : list row
}.

Definition len (df : DataFrame) : nat := length (rows df).

(** [c in cols] *)
Definition in_columns (c : string) (cols : list string) : bool :=
  existsb (String.eqb c) cols.

Arguments in_columns : simpl never.

(** [c in df.columns] *)
Definition has_column (c : string) (df : DataFrame) : bool :=
  in_columns c (columns df).

(** ** Exceptions *)

Inductive exn : Type :=
| KeyError (column : string)
| ValueError_missing_fields (fields : list string)
    (* ValueError(f"Missing required fields: {missing_fields}") *)
| ValueError_critical_nulls.
    (* ValueError("Critical fields contain null values") *)

Inductive result (A : Type) : Type :=
| Ok (a : A)
| Raise (e : exn).

Arguments Ok {A} a.
Arguments Raise {A} e.

(** The error monad, with the notation [x ← m; k] of stdpp. *)
#[global] Instance result_ret : MRet result := fun A a => Ok a.

#[global] Instance result_bind : MBind result := fun A B k m =>
  match m with
  | Ok a => k a
  | Raise e => Raise e
  end.

(** Row by row: the four ways in which the code rewrites or selects the
    rows of a frame. *)

(** [rows[p(rows[c])]]: the rows whose cell in column [c] passes [p] *)
Definition keep (c : string) (p : value -> bool) (rs : list row) : list row :=
  List.filter (fun r : row => p (r !!! c)) rs.

(** [df[dst] = f(df[src])] on one row *)
Definition set_row (src dst : string) (f : value -> value) (r : row) : row :=
  <[dst := f (r !!! src)]> r.

(** [df[dst] = v] on one row *)
Definition put_row (dst : string) (v : value) (r : row) : row :=
  <[dst := v]> r.

(** [df.loc[p(df[src]), dst] += k] on one row *)
Definition bump_row (src : string) (p : value -> bool) (dst : string)
    (k : Q) (r : row) : row :=
  if p (r !!! src) then <[dst := add_num (r !!! dst) k]> r else r.

(** The labels after an assignment to column [c]: a new label goes last. *)
Definition add_label (c : string) (cols : list string) : list string :=
  if in_columns c cols then cols else cols ++ [c].

Arguments add_label : simpl never.

(** [df[p(df[c])]]: the rows whose cell in column [c] passes [p]. *)
Definition where_ (c : string) (p : value -> bool) (df : DataFrame)
  : result DataFrame :=
  if has_column c df
  then Ok (mkDataFrame (columns df) (keep c p (rows df)))
  else Raise (KeyError c).

(** [df[dst] = v]: set a column to a constant. *)
Definition assign (dst : string) (v : value) (df : DataFrame) : DataFrame :=
  mkDataFrame (add_label dst (columns df)) (List.map (put_row dst v) (rows df)).

(** [df[dst] = f(df[src])]. *)
Definition assign_from (src dst : string) (f : value -> value)
    (df : DataFrame) : result DataFrame :=
  if has_column src df
  then Ok (mkDataFrame (add_label dst (columns df))
             (List.map (set_row src dst f) (rows df)))
  else Raise (KeyError src).

(** [df[c] = f(df[c])]. *)
Definition update (c : string) (f : value -> value) (df : DataFrame)
  : result DataFrame :=
  assign_from c c f df.

(** [df.loc[p(df[src]), dst] += k]. *)
Definition add_where (src : string) (p : value -> bool) (dst : string)
    (k : Q) (df : DataFrame) : result DataFrame :=
  if has_column src df
  then if has_column dst df
       then Ok (mkDataFrame (columns df)
                  (List.map (bump_row src p dst k) (rows df)))
       else Raise (KeyError dst)
  else Raise (KeyError src).

(** [df[c].isnull().sum()]. *)
Definition null_count (c : string) (df : DataFrame) : nat :=
  length (List.filter (fun r : row => isnull (r !!! c)) (rows df)).

(** [drop_duplicates(subset=[key], keep='first')]: scan the rows in
    order and keep a row when its key has not been seen before. *)
Fixpoint drop_duplicates (key : row -> value) (seen : list value)
    (rs : list row) : list row :=
  match rs with
  | [] => []
  | r :: rs' =>
      if isin seen (key r)
      then drop_duplicates key seen rs'
      else r :: drop_duplicates key (key r :: seen) rs'
  end.

(** [fillna(d)] on one cell. *)
Definition fillna (d : value) (v : value) : value :=
  if isnull v then d else v.

(** Readings of [datetime.now()], in the order in which one call of
    [transform_transactions] takes them. *)
Record clock : Type := mkClock {
  now_rule4 : Z;      (* rule 4 of [_apply_business_rules] *)
  now_rule5 : Z;      (* rule 5 of [_apply_business_rules] *)
  now_processed : Z;  (* [processed_at] in [_add_derived_fields] *)
  now_report : Z      (* timestamp of the quality report *)
}.

(** One entry of [DataTransformer.quality_report]. *)
Record report_entry : Type := mkReport {
  initial_records : Z;
  final_records : Z;
  records_removed : Z;
  removal_percentage : Q;
  null_counts : list (string * nat);
  timestamp : Z
}.

(** ** class DataTransformer *)

Section DataTransformer.

(** What pandas and Python make of a cell of another type: the
    element-wise [pd.to_numeric] and [pd.to_datetime] with
    [errors='coerce'] on a cell that is not already a number or a
    timestamp, and [str] on a cell that is not a string. *)
Variable to_numeric_obj : value -> value.
Variable to_datetime_obj : value -> value.
Variable str_obj : value -> string.

Definition to_numeric (v : value) : value :=
  match v with
  | Null => Null
  | Num _ | Inf _ => v
  | _ => to_numeric_obj v
  end.

Definition to_datetime (v : value) : value :=
  match v with
  | Null => Null
  | Timestamp _ => v
  | _ => to_datetime_obj v
  end.

Definition astype_str (v : value) : string :=
  match v with
  | Str s => s
  | _ => str_obj v
  end.

(** [.astype(str).str.strip().str.upper()] (or [.lower()]) on one cell. *)
Definition standardize (recase : string -> string) (v : value) : value :=
  Str (recase (strip (astype_str v))).

(** The column holds [datetime64[ns]] values. *)
Definition is_datetime64 (c : string) (rs : list row) : bool :=
  forallb (fun r : row =>
             match r !!! c with
             | Null | Timestamp _ => true
             | _ => false
             end) rs.

Definition _remove_duplicates (df : DataFrame) : result DataFrame :=
  if has_column "transaction_id" df
  then Ok (mkDataFrame (columns df)
             (drop_duplicates (fun r => r !!! "transaction_id") []
                (rows df)))
  else Raise (KeyError "transaction_id").

Definition critical_fields : list string :=
  ["transaction_id"; "customer_id"; "amount"].

Fixpoint drop_missing (fields : list string) (df : DataFrame)
  : result DataFrame :=
  match fields with
  | [] => Ok df
  | field :: fields' =>
      df ← where_ field notna df;
      drop_missing fields' df
  end.

Definition _handle_missing_values (df : DataFrame) : result DataFrame :=
  df ← drop_missing critical_fields df;
  df ← update "category" (fillna (Str "unknown")) df;
  update "merchant_id" (fillna (Str "MERCH0000")) df.

Definition _validate_data_types (df : DataFrame) : result DataFrame :=
  df ← (if has_column "transaction_date" df
           && is_datetime64 "transaction_date" (rows df)
        then Ok df
        else update "transaction_date" to_datetime df);
  df ← update "amount" to_numeric df;
  df ← where_ "transaction_date" notna df;
  df ← where_ "amount" notna df;
  df ← update "transaction_id" (standardize upper) df;
  df ← update "customer_id" (standardize upper) df;
  df ← update "merchant_id" (standardize upper) df;
  df ← update "status" (standardize lower) df;
  df ← update "category" (standardize lower) df;
  update "payment_method" (standardize lower) df.

Definition valid_statuses : list value :=
  [Str "completed"; Str "pending"; Str "failed"].

Definition days_730 : Z := 730 * ns_per_day.

Definition _apply_business_rules (clk : clock) (df : DataFrame)
  : result DataFrame :=
  df ← where_ "amount" (fun v => gt_num v 0) df;
  df ← where_ "amount" (fun v => le_num v 1000000) df;
  df ← where_ "status" (isin valid_statuses) df;
  df ← where_ "transaction_date" (fun v => le_ts v (now_rule4 clk)) df;
  let two_years_ago := now_rule5 clk - days_730 in
  where_ "transaction_date" (fun v => ge_ts v two_years_ago) df.

Definition amount_bins : list (edge * string) :=
  [(Finite 50, "small"); (Finite 200, "medium"); (Finite 500, "large");
   (Finite 1000, "very_large"); (PlusInf, "exceptional")].

Definition risk_bins : list (edge * string) :=
  [(Finite 20, "low"); (Finite 50, "medium"); (Finite 80, "high");
   (Finite 100, "critical")].

Definition weekend : list value := [Num 5; Num 6].

(** [range(0, 6)] *)
Definition late_night : list value :=
  [Num 0; Num 1; Num 2; Num 3; Num 4; Num 5].

Definition _add_derived_fields (clk : clock) (df : DataFrame)
  : result DataFrame :=
  df ← assign_from "transaction_date" "transaction_year" (dt year_of) df;
  df ← assign_from "transaction_date" "transaction_month" (dt month_of) df;
  df ← assign_from "transaction_date" "transaction_day" (dt day_of) df;
  df ← assign_from "transaction_date" "transaction_dayofweek"
         (dt dayofweek_of) df;
  df ← assign_from "transaction_date" "transaction_hour" (dt hour_of) df;
  df ← assign_from "amount" "amount_category" (cut_from 0 amount_bins) df;
  let df := assign "risk_score" (Num 0) df in
  df ← add_where "amount" (fun v => gt_num v 5000) "risk_score" 30 df;
  df ← add_where "amount" (fun v => gt_num v 10000) "risk_score" 40 df;
  df ← add_where "status" (value_eqb (Str "failed")) "risk_score" 50 df;
  df ← add_where "transaction_dayofweek" (isin weekend) "risk_score" 10 df;
  df ← add_where "transaction_hour" (isin late_night) "risk_score" 20 df;
  df ← assign_from "risk_score" "risk_level" (cut_from (-1) risk_bins) df;
  Ok (assign "processed_at" (Timestamp (now_processed clk)) df).

Definition required_fields : list string :=
  ["transaction_id"; "customer_id"; "transaction_date"; "amount";
   "merchant_id"; "category"; "status"; "payment_method"; "risk_score";
   "risk_level"].

Definition _final_validation (df : DataFrame) : result DataFrame :=
  let missing_fields :=
    List.filter (fun f => negb (has_column f df)) required_fields in
  match missing_fields with
  | _ :: _ => Raise (ValueError_missing_fields missing_fields)
  | [] =>
      let critical_nulls :=
        List.map (fun f => null_count f df) required_fields in
      if (0 <? list_sum critical_nulls)%nat
      then Raise ValueError_critical_nulls
      else Ok df
  end.

Definition transform_transactions (clk : clock)
    (quality_report : gmap string report_entry) (df : DataFrame)
  : result (DataFrame * gmap string report_entry) :=
  let initial_count := Z.of_nat (len df) in
  df ← _remove_duplicates df;
  df ← _handle_missing_values df;
  df ← _validate_data_types df;
  df ← _apply_business_rules clk df;
  df ← _add_derived_fields clk df;
  df ← _final_validation df;
  let final_count := Z.of_nat (len df) in
  let entry :=
    {| initial_records := initial_count;
       final_records := final_count;
       records_removed := initial_count - final_count;
       removal_percentage :=
         if 0 <? initial_count
         then (inject_Z (initial_count - final_count)
               / inject_Z initial_count * 100)%Q
         else 0%Q;
       null_counts :=
         List.map (fun c => (c, null_count c df)) (columns df);
       timestamp := now_report clk |} in
  Ok (df, <["transactions" := entry]> quality_report).

(** The second component is the customers frame as the call leaves it:
    the body reads its [customer_id] column and writes nothing. *)
Definition validate_against_customers (transactions customers : DataFrame)
  : result (DataFrame * DataFrame) :=
  if has_column "customer_id" customers
  then
    let valid_customers :=
      List.map (fun r : row => r !!! "customer_id") (rows customers) in
    transactions ← where_ "customer_id" (isin valid_customers) transactions;
    Ok (transactions, customers)
  else Raise (KeyError "customer_id").

End DataTransformer.

(** ** class DataQualityChecker *)

Record thresholds : Type := mkThresholds {
  max_null_percentage : Q;
  min_row_count : Q;
  max_duplicate_percentage : Q
}.

Definition default_thresholds : thresholds :=
  {| max_null_percentage := 0.05;
     min_row_count := 100;
     max_duplicate_percentage := 0.01 |}.

(** The messages appended to [quality_issues]: each constructor is one of
    the three f-strings of the source, with the values it interpolates. *)
Inductive issue : Type :=
| RowCountBelowMinimum (dataset_name : string) (row_count : nat)
    (minimum : Q)
    (* f"{dataset_name}: Row count {len(df)} below minimum {...}" *)
| NullPercentageExceeds (dataset_name : string) (null_pct : value)
    (threshold_pct : Q)
    (* f"{dataset_name}: Null percentage {null_pct:.2f}% exceeds threshold {...}%" *)
| DuplicatePercentageExceeds (dataset_name : string) (dup_pct : value).
    (* f"{dataset_name}: Duplicate percentage {dup_pct:.2f}% exceeds threshold" *)

Definition is_row_count_issue (i : issue) : bool :=
  match i with RowCountBelowMinimum _ _ _ => true | _ => false end.

(** True division of a numpy integer by an integer: a zero divisor gives
    [nan] or an infinity (with a warning), never an exception. *)
Definition np_truediv (a b : Z) : value :=
  if b =? 0
  then (if a =? 0 then Null else Inf (a <? 0))
  else Num (inject_Z a / inject_Z b).

(** Product of a float by a positive constant. *)
Definition mul_num (v : value) (k : Q) : value :=
  match v with
  | Num q => Num (q * k)
  | _ => v
  end.

(** [Series.duplicated()]: True on every value seen earlier in the scan. *)
Fixpoint duplicated (seen : list value) (vs : list value) : list bool :=
  match vs with
  | [] => []
  | v :: vs' => isin seen v :: duplicated (v :: seen) vs'
  end.

Definition count_true (bs : list bool) : nat :=
  length (List.filter (fun b : bool => b) bs).

(** [df.isnull().sum().sum()] *)
Definition total_nulls (df : DataFrame) : nat :=
  list_sum (List.map (fun c => null_count c df) (columns df)).

Section DataQualityChecker.

Variable self_thresholds : thresholds.

Definition _check_row_count (quality_issues : list issue)
    (df : DataFrame) (dataset_name : string) : bool * list issue :=
  if Qlt_bool (inject_Z (Z.of_nat (len df))) (min_row_count self_thresholds)
  then (false,
        quality_issues ++
          [RowCountBelowMinimum dataset_name (len df)
             (min_row_count self_thresholds)])
  else (true, quality_issues).

Definition _check_null_percentage (quality_issues : list issue)
    (df : DataFrame) (dataset_name : string) : bool * list issue :=
  let null_pct :=
    mul_num
      (np_truediv (Z.of_nat (total_nulls df))
         (Z.of_nat (len df) * Z.of_nat (length (columns df))))
      100 in
  if gt_num null_pct (max_null_percentage self_thresholds * 100)
  then (false,
        quality_issues ++
          [NullPercentageExceeds dataset_name null_pct
             (max_null_percentage self_thresholds * 100)])
  else (true, quality_issues).

Definition _check_duplicates (quality_issues : list issue)
    (df : DataFrame) (dataset_name : string) : bool * list issue :=
  if has_column "transaction_id" df
  then
    let ids := List.map (fun r : row => r !!! "transaction_id") (rows df) in
    let dup_pct :=
      mul_num
        (np_truediv (Z.of_nat (count_true (duplicated [] ids)))
           (Z.of_nat (len df)))
        100 in
    if gt_num dup_pct (max_duplicate_percentage self_thresholds * 100)
    then (false,
          quality_issues ++ [DuplicatePercentageExceeds dataset_name dup_pct])
    else (true, quality_issues)
  else (true, quality_issues).

Definition _check_data_types (quality_issues : list issue)
    (df : DataFrame) (dataset_name : string) : bool * list issue :=
  (true, quality_issues).

Definition run_quality_checks (quality_issues : list issue)
    (df : DataFrame) (dataset_name : string) : bool * list issue :=
  let all_passed := true in
  let '(ok, quality_issues) :=
    _check_row_count quality_issues df dataset_name in
  let all_passed := if negb ok then false else all_passed in
  let '(ok, quality_issues) :=
    _check_null_percentage quality_issues df dataset_name in
  let all_passed := if negb ok then false else all_passed in
  let '(ok, quality_issues) :=
    _check_duplicates quality_issues df dataset_name in
  let all_passed := if negb ok then false else all_passed in
  let '(ok, quality_issues) :=
    _check_data_types quality_issues df dataset_name in
  let all_passed := if negb ok then false else all_passed in
  (all_passed, quality_issues).

End DataQualityChecker.

(** ** The stages read row by row

    What each stage does to the list of rows and to the labels when every
    column it reads is there; the lemmas of the next part show that the
    stages compute exactly this. *)

Section RowWise.

Variable to_numeric_obj : value -> value.
Variable to_datetime_obj : value -> value.
Variable str_obj : value -> string.

(** stage 2 *)
Definition fill_row (r : row) : row :=
  set_row "merchant_id" "merchant_id" (fillna (Str "MERCH0000"))
    (set_row "category" "category" (fillna (Str "unknown")) r).

Definition rows2 (rs : list row) : list row :=
  List.map fill_row
    (keep "amount" notna
       (keep "customer_id" notna (keep "transaction_id" notna rs))).

(** stage 3 *)
Definition coerce_dates (rs : list row) : list row :=
  if is_datetime64 "transaction_date" rs then rs
  else List.map
         (set_row "transaction_date" "transaction_date"
            (to_datetime to_datetime_obj)) rs.

Definition standardize_row (r : row) : row :=
  let up := standardize str_obj upper in
  let low := standardize str_obj lower in
  set_row "payment_method" "payment_method" low
    (set_row "category" "category" low
       (set_row "status" "status" low
          (set_row "merchant_id" "merchant_id" up
             (set_row "customer_id" "customer_id" up
                (set_row "transaction_id" "transaction_id" up r))))).

Definition rows3 (rs : list row) : list row :=
  List.map standardize_row
    (keep "amount" notna
       (keep "transaction_date" notna
          (List.map (set_row "amount" "amount" (to_numeric to_numeric_obj))
             (coerce_dates rs)))).

(** stage 4 *)
Definition rows4 (clk : clock) (rs : list row) : list row :=
  keep "transaction_date" (fun v => ge_ts v (now_rule5 clk - days_730))
    (keep "transaction_date" (fun v => le_ts v (now_rule4 clk))
       (keep "status" (isin valid_statuses)
          (keep "amount" (fun v => le_num v 1000000)
             (keep "amount" (fun v => gt_num v 0) rs)))).

(** stage 5 *)
Definition calendar_row (r : row) : row :=
  set_row "transaction_date" "transaction_hour" (dt hour_of)
    (set_row "transaction_date" "transaction_dayofweek" (dt dayofweek_of)
       (set_row "transaction_date" "transaction_day" (dt day_of)
          (set_row "transaction_date" "transaction_month" (dt month_of)
             (set_row "transaction_date" "transaction_year" (dt year_of)
                r)))).

Definition score_row (r : row) : row :=
  bump_row "transaction_hour" (isin late_night) "risk_score" 20
    (bump_row "transaction_dayofweek" (isin weekend) "risk_score" 10
       (bump_row "status" (value_eqb (Str "failed")) "risk_score" 50
          (bump_row "amount" (fun v => gt_num v 10000) "risk_score" 40
             (bump_row "amount" (fun v => gt_num v 5000) "risk_score" 30
                (put_row "risk_score" (Num 0) r))))).

Definition derive_row (clk : clock) (r : row) : row :=
  put_row "processed_at" (Timestamp (now_processed clk))
    (set_row "risk_score" "risk_level" (cut_from (-1) risk_bins)
       (score_row
          (set_row "amount" "amount_category" (cut_from 0 amount_bins)
             (calendar_row r)))).

Definition derived_columns (cols : list string) : list string :=
  add_label "processed_at"
    (add_label "risk_level"
       (add_label "risk_score"
          (add_label "amount_category"
             (add_label "transaction_hour"
                (add_label "transaction_dayofweek"
                   (add_label "transaction_day"
                      (add_label "transaction_month"
                         (add_label "transaction_year" cols)))))))).

(** The columns of the raw schema, in the order in which the stages
    first read them. *)
Definition raw_columns : list string :=
  ["transaction_id"; "customer_id"; "amount"; "category"; "merchant_id";
   "transaction_date"; "status"; "payment_method"].

Definition first_missing (cs cols : list string) : option string :=
  List.find (fun c => negb (in_columns c cols)) cs.

(** Stages 1 to 5 on the rows. *)
Definition rows_1_5 (clk : clock) (rs : list row) : list row :=
  List.map (derive_row clk)
    (rows4 clk
       (rows3
          (rows2
             (drop_duplicates (fun r => r !!! "transaction_id") [] rs)))).

(** Stages 1 to 5 in sequence, as [transform_transactions] runs them. *)
Definition stages_1_5 (clk : clock) (df : DataFrame) : result DataFrame :=
  df ← _remove_duplicates df;
  df ← _handle_missing_values df;
  df ← _validate_data_types to_numeric_obj to_datetime_obj str_obj df;
  df ← _apply_business_rules clk df;
  _add_derived_fields clk df.

(** The entry that [transform_transactions] stores in the report. *)
Definition report_of (clk : clock) (initial_count : Z) (df : DataFrame)
  : report_entry :=
  let final_count := Z.of_nat (len df) in
  {| initial_records := initial_count;
     final_records := final_count;
     records_removed := initial_count - final_count;
     removal_percentage :=
       if 0 <? initial_count
       then (inject_Z (initial_count - final_count)
             / inject_Z initial_count * 100)%Q
       else 0%Q;
     null_counts := List.map (fun c => (c, null_count c df)) (columns df);
     timestamp := now_report clk |}.

End RowWise.

(** The score starts at 0 and a step adds a non-negative amount or
    nothing: the cell holds a number that is not below 0. *)
Definition nonneg_score (r : row) : Prop :=
  exists s, r !!! "risk_score" = Num s /\ (0 <= s)%Q.

(** ** Example batches *)

(** The raw schema handed over by the extractor. *)
Definition raw_schema : list string :=
  ["transaction_id"; "customer_id"; "transaction_date"; "amount";
   "merchant_id"; "category"; "status"; "payment_method"].

Definition raw_record (transaction_id customer_id transaction_date amount
    merchant_id category status payment_method : value) : row :=
  list_to_map
    [("transaction_id", transaction_id); ("customer_id", customer_id);
     ("transaction_date", transaction_date); ("amount", amount);
     ("merchant_id", merchant_id); ("category", category);
     ("status", status); ("payment_method", payment_method)].

(** [hour] o'clock on day number [day] after 1970-01-01. *)
Definition at_hour (day hour : Z) : Z := day * ns_per_day + hour * ns_per_hour.

(** Every reading of the clock is Monday 2024-01-15 at noon. *)
Definition example_clock : clock :=
  let noon := at_hour 19737 12 in mkClock noon noon noon noon.

(** In the examples every cell already has the type of its column, so that
    nothing is parsed: an instance of the coercions that answers null, and
    of [str] that answers ["nan"]. *)
Definition coerce_null (v : value) : value := Null.
Definition str_nan (v : value) : string := "nan".

(** amount 12000, failed, Sunday 2024-01-14 at 02:00 *)
Definition risky_record : row :=
  raw_record (Str "TXN00000001") (Str "CUST000001")
    (Timestamp (at_hour 19736 2)) (Num 12000) (Str "MERCH0001")
    (Str "retail") (Str "failed") (Str "credit_card").

Definition risky_batch : DataFrame := mkDataFrame raw_schema [risky_record].

(** Two records whose ids differ in letter case and in a trailing blank. *)
Definition lowercase_id_record : row :=
  raw_record (Str "txn00000002 ") (Str "CUST000002")
    (Timestamp (at_hour 19730 12)) (Num 12.5) (Str "MERCH0002")
    (Str "groceries") (Str "completed") (Str "cash").

Definition uppercase_id_record : row :=
  raw_record (Str "TXN00000002") (Str "CUST000003")
    (Timestamp (at_hour 19731 15)) (Num 250) (Str "MERCH0003")
    (Str "retail") (Str "pending") (Str "debit_card").

Definition same_id_batch : DataFrame :=
  mkDataFrame raw_schema [lowercase_id_record; uppercase_id_record].

(** A record without a merchant. *)
Definition no_merchant_record : row :=
  raw_record (Str "TXN00000003") (Str "CUST000004")
    (Timestamp (at_hour 19733 9)) (Num 75.25) Null (Str "utilities")
    (Str "completed") (Str "bank_transfer").

Definition no_merchant_batch : DataFrame :=
  mkDataFrame raw_schema [no_merchant_record].

(** A batch without the [amount] column. *)
Definition no_amount_batch : DataFrame :=
  mkDataFrame
    ["transaction_id"; "customer_id"; "transaction_date"; "merchant_id";
     "category"; "status"; "payment_method"]
    [no_merchant_record].

(** Ten transactions of which the third, sixth and ninth reference a
    customer that is not in [three_customers]. *)
Definition customer_record (customer_id : string) : row :=
  list_to_map [("customer_id", Str customer_id)].

Definition three_customers : DataFrame :=
  mkDataFrame ["customer_id"]
    [customer_record "CUST000001"; customer_record "CUST000002";
     customer_record "CUST000003"].

Definition ten_transactions : DataFrame :=
  mkDataFrame ["customer_id"]
    (List.map customer_record
       ["CUST000001"; "CUST000002"; "CUST000777"; "CUST000003";
        "CUST000001"; "CUST000888"; "CUST000002"; "CUST000003";
        "CUST000999"; "CUST000001"]).

(** Fifty rows with distinct ids and no null. *)
Definition numbered_record (n : nat) : row :=
  list_to_map
    [("transaction_id", Num (inject_Z (Z.of_nat n))); ("amount", Num 100)].

Definition fifty_rows : DataFrame :=
  mkDataFrame ["transaction_id"; "amount"]
    (List.map numbered_record (seq 0 50)).

(** No rows, raw schema. *)
Definition empty_batch : DataFrame := mkDataFrame raw_schema [].

(** What [transform_transactions] returns for an example batch that has
    the raw schema and passes the final validation, at [example_clock]
    and from an empty report. *)
Definition example_output (df : DataFrame) : DataFrame :=
  mkDataFrame (derived_columns (columns df))
    (rows_1_5 coerce_null coerce_null str_nan example_clock (rows df)).

Definition example_report (df : DataFrame) : gmap string report_entry :=
  <["transactions" :=
      report_of example_clock (Z.of_nat (len df)) (example_output df)]> ∅.

(** ** Readings of the stages used in the properties *)

(** The five business rules on one record. *)
Definition passes_rules (clk : clock) (r : row) : bool :=
  gt_num (r !!! "amount") 0
  && le_num (r !!! "amount") 1000000
  && isin valid_statuses (r !!! "status")
  && le_ts (r !!! "transaction_date") (now_rule4 clk)
  && ge_ts (r !!! "transaction_date") (now_rule5 clk - days_730).

(** None of the critical fields is null. *)
Definition critical_present (r : row) : bool :=
  notna (r !!! "transaction_id")
  && notna (r !!! "customer_id")
  && notna (r !!! "amount").

(** [Series.is_unique]: no value occurs twice. *)
Fixpoint is_unique (vs : list value) : bool :=
  match vs with
  | [] => true
  | v :: vs' => negb (isin vs' v) && is_unique vs'
  end.

(** The column [c] of a frame, top to bottom. *)
Definition column_values (c : string) (df : DataFrame) : list value :=
  List.map (fun r : row => r !!! c) (rows df).

(** A batch in which the third record repeats the id of the first. *)
Definition repeated_id_record : row :=
  raw_record (Str "TXN00000002") (Str "CUST000009")
    (Timestamp (at_hour 19732 10)) (Num 40) (Str "MERCH0009")
    (Str "gas") (Str "completed") (Str "cash").

Definition repeated_id_batch : DataFrame :=
  mkDataFrame raw_schema
    [uppercase_id_record; no_merchant_record; repeated_id_record].

(** Two valid records with different ids. *)
Definition two_records_batch : DataFrame :=
  mkDataFrame raw_schema [uppercase_id_record; no_merchant_record].

(** What [validate_against_customers] keeps of a frame. *)
Definition known_customers_of (customers transactions : DataFrame)
  : DataFrame :=
  mkDataFrame (columns transactions)
    (keep "customer_id" (isin (column_values "customer_id" customers))
       (rows transactions)).

(** ** aws/lambda/transaction_processor.py *)

(** What the function can raise. *)
Inductive lambda_error : Type :=
| LambdaKeyError (column : string)   (* a column that the frame lacks *)
| LambdaTypeError                    (* [>] between a str or a datetime and an int *)
| LambdaIndexError                   (* [event['Records'][0]] on an empty list *)
| NoSuchKey (bucket key : string)    (* [get_object] on an object that is not there *)
| CsvError.                          (* [pd.read_csv] rejects the content *)

Inductive attempt (A : Type) : Type :=
| Done (a : A)
| Failed (e : lambda_error).

Arguments Done {A} a.
Arguments Failed {A} e.

#[global] Instance attempt_ret : MRet attempt := fun A a => Done a.

#[global] Instance attempt_bind : MBind attempt := fun A B k m =>
  match m with
  | Done a => k a
  | Failed e => Failed e
  end.

(** A cell that Python cannot compare with the integer 0. *)
Definition not_a_number (v : value) : bool :=
  match v with
  | Str _ | Timestamp _ => true
  | _ => false
  end.

(** [process_transactions(df)], with the reading [now] of
    [pd.Timestamp.now()]. *)
Definition process_transactions (now : Z) (df : DataFrame)
  : attempt DataFrame :=
  (* df = df.drop_duplicates(subset=['transaction_id']) *)
  if has_column "transaction_id" df then
    let df :=
      mkDataFrame (columns df)
        (drop_duplicates (fun r => r !!! "transaction_id") [] (rows df)) in
    (* df = df[df['amount'].notna()] *)
    if has_column "amount" df then
      let df := mkDataFrame (columns df) (keep "amount" notna (rows df)) in
      (* df = df[df['amount'] > 0] *)
      if existsb not_a_number (column_values "amount" df)
      then Failed LambdaTypeError
      else
        let df :=
          mkDataFrame (columns df)
            (keep "amount" (fun v => gt_num v 0) (rows df)) in
        (* df['processed_at'] = pd.Timestamp.now() *)
        Done (assign "processed_at" (Timestamp now) df)
    else Failed (LambdaKeyError "amount")
  else Failed (LambdaKeyError "transaction_id").

(** [s.replace(old, new)] for a non-empty [old]: scan from the left, and
    at a position where [old] starts write [new] and skip the rest of
    that occurrence. *)
Fixpoint replace_from (old new : string) (skip : nat) (s : string) : string :=
  match s with
  | EmptyString => EmptyString
  | String a s' =>
      match skip with
      | S k => replace_from old new k s'
      | O =>
          if String.prefix old s
          then new ++ replace_from old new (String.length old - 1) s'
          else String a (replace_from old new 0 s')
      end
  end.

Definition str_replace (old new s : string) : string :=
  replace_from old new 0 s.

(** One element of [event['Records']]: the bucket and the key of the
    object that was uploaded. *)
Record s3_record : Type := mkS3Record {
  bucket_name : string;
  object_key : string
}.

(** The body of a response, before [json.dumps]. *)
Inductive response_body : Type :=
| EmptyFile                          (* 'Empty file' *)
| ProcessingSuccessful (records_processed : nat) (output_file : string)
| ProcessingError (error : lambda_error).

Record response : Type := mkResponse {
  statusCode : Z;
  body : response_body
}.

Section LambdaHandler.

(** [pd.read_csv] on the text of an object and [DataFrame.to_csv]. *)
Variable read_csv : string -> attempt DataFrame.
Variable to_csv : DataFrame -> string.

(** The objects of S3, by bucket and key, before and after the call. *)
Definition lambda_handler (now : Z) (s3 : gmap (string * string) string)
    (event_records : list s3_record)
  : response * gmap (string * string) string :=
  let attempted :=
    record ← match event_records with
             | [] => Failed LambdaIndexError
             | record :: _ => Done record
             end;
    let bucket := bucket_name record in
    let key := object_key record in
    file_content ← match s3 !! (bucket, key) with
                   | Some content => Done content
                   | None => Failed (NoSuchKey bucket key)
                   end;
    df ← read_csv file_content;
    if (len df =? 0)%nat
    then Done (mkResponse 400 EmptyFile, s3)
    else
      processed_df ← process_transactions now df;
      let output_key := str_replace "raw/" "processed/" key in
      let s3 := <[(bucket, output_key) := to_csv processed_df]> s3 in
      Done (mkResponse 200
              (ProcessingSuccessful (len processed_df) output_key), s3) in
  match attempted with
  | Done answer => answer
  | Failed e => (mkResponse 500 (ProcessingError e), s3)
  end.

End LambdaHandler.

(** ** src/load.py: the summary query of [DataLoader.run_quality_checks] *)

(** [s.split(sep)] for a separator of one character. *)
Fixpoint split_on (sep : ascii) (s : string) : list string :=
  match s with
  | EmptyString => [EmptyString]
  | String a s' =>
      if Ascii.eqb a sep
      then EmptyString :: split_on sep s'
      else match split_on sep s' with
           | [] => [String a EmptyString]
           | part :: parts => String a part :: parts
           end
  end.

(** [queries[-2]]: the element before the last, [None] for the
    [IndexError] of a list with fewer than two elements. *)
Definition second_to_last (queries : list string) : option string :=
  match rev queries with
  | _ :: q :: _ => Some q
  | _ => None
  end.

(** [sql_script.split(';')[-2]] *)
Definition summary_query (sql_script : string) : option string :=
  second_to_last (split_on ";" sql_script).

(** [sub in s] *)
Fixpoint contains (sub s : string) : bool :=
  String.prefix sub s
  || match s with
     | EmptyString => false
     | String _ s' => contains sub s'
     end.

(** [c in s] for one character. *)
Fixpoint has_char (c : ascii) (s : string) : bool :=
  match s with
  | EmptyString => false
  | String a s' => Ascii.eqb a c || has_char c s'
  end.

(** ** Examples for the Lambda function and the summary query *)

(** The reading of [pd.Timestamp.now()]. *)
Definition example_now : Z := at_hour 19737 12.

(** A record whose amount was read as text. *)
Definition text_amount_record : row :=
  raw_record (Str "TXN00000004") (Str "CUST000004")
    (Timestamp (at_hour 19733 9)) (Str "75,25") (Str "MERCH0004")
    (Str "utilities") (Str "completed") (Str "bank_transfer").

Definition text_amount_batch : DataFrame :=
  mkDataFrame raw_schema [text_amount_record; uppercase_id_record].

Definition two_records_processed : DataFrame :=
  assign "processed_at" (Timestamp example_now) two_records_batch.

(** A parser that knows one text, and a printer that knows one size. *)
Definition example_read_csv (content : string) : attempt DataFrame :=
  if String.eqb content "two records"
  then Done two_records_batch
  else Failed CsvError.

Definition example_to_csv (df : DataFrame) : string :=
  if (len df =? 2)%nat then "two records, processed" else "other records".

(** The same upload under a key below [raw/] and under a key outside it. *)
Definition raw_upload : s3_record := mkS3Record "bank" "raw/day1.csv".
Definition plain_upload : s3_record := mkS3Record "bank" "day1.csv".

Definition example_s3 : gmap (string * string) string :=
  <[("bank", "raw/day1.csv") := "two records"]>
    (<[("bank", "day1.csv") := "two records"]> ∅).

(** * Properties *)

(** ** Comparisons and keys *)

Lemma Qlt_bool_iff (x y : Q) : Qlt_bool x y = true <-> (x < y)%Q.
Proof.
  unfold Qlt_bool. rewrite negb_true_iff. split.
  - intros H. apply Qnot_le_lt. intros Hle.
    apply Qle_bool_iff in Hle. congruence.
  - intros H. destruct (Qle_bool y x) eqn:E; [|reflexivity].
    apply Qle_bool_iff in E. exfalso. exact (Qlt_not_le _ _ H E).
Qed.

Lemma value_eqb_refl (v : value) : value_eqb v v = true.
Proof.
  destruct v as [|s|q|b|z]; simpl.
  - reflexivity.
  - apply String.eqb_refl.
  - apply Qeq_bool_iff. reflexivity.
  - destruct b; reflexivity.
  - apply Z.eqb_refl.
Qed.

Lemma has_column_In (c : string) (df : DataFrame) :
  has_column c df = true <-> c ∈ columns df.
Proof.
  unfold has_column, in_columns. rewrite existsb_exists. split.
  - intros (x & Hx & Heq). apply String.eqb_eq in Heq. subst.
    by apply list_elem_of_In.
  - intros H. exists c. split; [by apply list_elem_of_In|apply String.eqb_refl].
Qed.

Lemma bind_Ok {A B : Type} (m : result A) (k : A -> result B) (b : B) :
  m ≫= k = Ok b -> exists a, m = Ok a /\ k a = Ok b.
Proof. destruct m as [a|e]; simpl; [eauto|discriminate]. Qed.

Lemma bind_assoc {A B C : Type} (m : result A) (k : A -> result B)
    (h : B -> result C) :
  (m ≫= k) ≫= h = m ≫= (fun a => k a ≫= h).
Proof. by destruct m. Qed.

Lemma filter_length_split {A : Type} (p : A -> bool) (l : list A) :
  (length (List.filter p l)
   + length (List.filter (fun x => negb (p x)) l) = length l)%nat.
Proof.
  induction l as [|x l IH]; simpl; [reflexivity|].
  destruct (p x); simpl; lia.
Qed.

(** ** Deduplicate *)

Section Dedup.

Variable key : row -> value.

Lemma drop_duplicates_again (rs : list row) :
  forall seen,
    drop_duplicates key seen (drop_duplicates key seen rs)
    = drop_duplicates key seen rs.
Proof.
  induction rs as [|r rs IH]; intros seen; simpl; [reflexivity|].
  destruct (isin seen (key r)) eqn:E.
  - apply IH.
  - simpl. rewrite E. f_equal. apply IH.
Qed.

Lemma drop_duplicates_length (rs : list row) :
  forall seen, (length (drop_duplicates key seen rs) <= length rs)%nat.
Proof.
  induction rs as [|r rs IH]; intros seen; simpl; [lia|].
  destruct (isin seen (key r)); simpl.
  - specialize (IH seen). lia.
  - specialize (IH (key r :: seen)). lia.
Qed.

Lemma drop_duplicates_fresh (rs : list row) :
  forall seen r,
    r ∈ drop_duplicates key seen rs -> isin seen (key r) = false.
Proof.
  induction rs as [|r0 rs IH]; intros seen r; simpl.
  - intros H. by apply elem_of_nil in H.
  - destruct (isin seen (key r0)) eqn:E.
    + apply IH.
    + intros H. apply elem_of_cons in H as [->|H]; [exact E|].
      apply IH in H. simpl in H. apply orb_false_iff in H. tauto.
Qed.

End Dedup.

(** C9. The Deduplicate stage is idempotent: running [_remove_duplicates]
    on its own output returns that output unchanged, and so the stage run
    twice in sequence is the stage run once.  The stage succeeds whenever
    the batch has a [transaction_id] column. *)
Theorem remove_duplicates_idempotent (df : DataFrame) :
  (df1 ← _remove_duplicates df; _remove_duplicates df1) = _remove_duplicates df
  /\ (has_column "transaction_id" df = true ->
      exists df1, _remove_duplicates df = Ok df1
                  /\ _remove_duplicates df1 = Ok df1).
Proof.
  unfold _remove_duplicates, has_column.
  destruct (in_columns "transaction_id" (columns df)) eqn:E; simpl.
  - rewrite E, drop_duplicates_again. split; [reflexivity|].
    intros _. eexists. split; [reflexivity|]. simpl.
    by rewrite E, drop_duplicates_again.
  - split; [reflexivity|discriminate].
Qed.

(** ** Cross-validation against the customers *)

(** C8. [validate_against_customers] keeps exactly the records whose
    [customer_id] is one of the customers' ids, in their order, and drops
    the others, so that the output is shorter by the number of records
    that reference no customer (3 of 10 leaves 7); the customers frame
    comes back as it was passed. *)
Theorem validate_against_customers_spec (transactions customers : DataFrame) :
  has_column "customer_id" transactions = true ->
  has_column "customer_id" customers = true ->
  let ids := List.map (fun c : row => c !!! "customer_id") (rows customers) in
  let known := fun r : row => isin ids (r !!! "customer_id") in
  exists kept,
    validate_against_customers transactions customers = Ok (kept, customers)
    /\ columns kept = columns transactions
    /\ rows kept = List.filter known (rows transactions)
    /\ (forall r, r ∈ rows kept <->
                  r ∈ rows transactions
                  /\ exists c, c ∈ rows customers
                               /\ value_eqb (r !!! "customer_id")
                                    (c !!! "customer_id") = true)
    /\ (len kept
        + length (List.filter (fun r => negb (known r)) (rows transactions))
        = len transactions)%nat.
Proof.
  intros Ht Hc ids known.
  exists (mkDataFrame (columns transactions)
            (List.filter known (rows transactions))).
  unfold validate_against_customers, where_. rewrite Hc, Ht. simpl.
  split; [reflexivity|]. split; [reflexivity|]. split; [reflexivity|].
  split.
  - intros r. split.
    + intros H. apply list_elem_of_In, filter_In in H as [Hr H].
      split; [by apply list_elem_of_In|].
      unfold known, isin in H. apply existsb_exists in H as (v & Hv & Heq).
      unfold ids in Hv. apply in_map_iff in Hv as (c & <- & Hin).
      exists c. split; [by apply list_elem_of_In|exact Heq].
    + intros (Hr & c & Hcin & Heq). apply list_elem_of_In, filter_In.
      split; [by apply list_elem_of_In|].
      unfold known, isin. apply existsb_exists.
      exists (c !!! "customer_id"). split; [|exact Heq].
      unfold ids. apply in_map. by apply list_elem_of_In.
  - unfold len. simpl. apply filter_length_split.
Qed.

(** ** The quality gate *)

Section QualityGate.

Variable thr : thresholds.

(** A check appends to whatever issues were recorded before it, and
    what it appends and answers does not depend on them. *)
Lemma check_row_count_frame issues df name :
  _check_row_count thr issues df name
  = (fst (_check_row_count thr [] df name),
     issues ++ snd (_check_row_count thr [] df name)).
Proof.
  unfold _check_row_count.
  destruct (Qlt_bool _ _); simpl; [reflexivity|by rewrite app_nil_r].
Qed.

Lemma check_null_percentage_frame issues df name :
  _check_null_percentage thr issues df name
  = (fst (_check_null_percentage thr [] df name),
     issues ++ snd (_check_null_percentage thr [] df name)).
Proof.
  unfold _check_null_percentage.
  destruct (gt_num _ _); simpl; [reflexivity|by rewrite app_nil_r].
Qed.

Lemma check_duplicates_frame issues df name :
  _check_duplicates thr issues df name
  = (fst (_check_duplicates thr [] df name),
     issues ++ snd (_check_duplicates thr [] df name)).
Proof.
  unfold _check_duplicates.
  destruct (has_column _ _); [|simpl; by rewrite app_nil_r].
  destruct (gt_num _ _); simpl; [reflexivity|by rewrite app_nil_r].
Qed.

Lemma check_data_types_frame issues df name :
  _check_data_types issues df name
  = (fst (_check_data_types [] df name),
     issues ++ snd (_check_data_types [] df name)).
Proof. unfold _check_data_types. simpl. by rewrite app_nil_r. Qed.

Lemma run_quality_checks_unfold issues df name :
  run_quality_checks thr issues df name
  = (fst (_check_row_count thr [] df name)
     && fst (_check_null_percentage thr [] df name)
     && fst (_check_duplicates thr [] df name)
     && fst (_check_data_types [] df name),
     issues ++ snd (_check_row_count thr [] df name)
            ++ snd (_check_null_percentage thr [] df name)
            ++ snd (_check_duplicates thr [] df name)
            ++ snd (_check_data_types [] df name)).
Proof.
  unfold run_quality_checks.
  rewrite (check_row_count_frame issues).
  rewrite (check_null_percentage_frame (issues ++ _)).
  rewrite (check_duplicates_frame ((issues ++ _) ++ _)).
  rewrite (check_data_types_frame (((issues ++ _) ++ _) ++ _)).
  rewrite <- !app_assoc. f_equal.
  destruct (fst (_check_row_count thr [] df name)),
    (fst (_check_null_percentage thr [] df name)),
    (fst (_check_duplicates thr [] df name)),
    (fst (_check_data_types [] df name)); reflexivity.
Qed.

Lemma null_count_empty c df : rows df = [] -> null_count c df = 0%nat.
Proof. unfold null_count. by intros ->. Qed.

Lemma total_nulls_empty df : rows df = [] -> total_nulls df = 0%nat.
Proof.
  intros H. unfold total_nulls.
  induction (columns df) as [|c cs IH]; simpl; [reflexivity|].
  by rewrite IH, (null_count_empty c df H).
Qed.

End QualityGate.

(** C5. [run_quality_checks] evaluates the four checks one after the
    other, whatever the earlier ones answered: its verdict is the
    conjunction of the four verdicts, and the issues it leaves are the
    earlier ones followed by what each check reports, which is one message
    for a failing check and nothing for a passing one.  With 50 rows and
    [min_row_count = 100] the verdict is false and exactly one of the new
    messages is the row-count one. *)
Theorem run_quality_checks_reports_all (thr : thresholds)
    (issues : list issue) (df : DataFrame) (name : string) :
  let v1 := _check_row_count thr [] df name in
  let v2 := _check_null_percentage thr [] df name in
  let v3 := _check_duplicates thr [] df name in
  let v4 := _check_data_types [] df name in
  let new := snd v1 ++ snd v2 ++ snd v3 ++ snd v4 in
  run_quality_checks thr issues df name
  = (fst v1 && fst v2 && fst v3 && fst v4, issues ++ new)
  /\ length (snd v1) = (if fst v1 then 0 else 1)%nat
  /\ length (snd v2) = (if fst v2 then 0 else 1)%nat
  /\ length (snd v3) = (if fst v3 then 0 else 1)%nat
  /\ v4 = (true, [])
  /\ (len df = 50%nat -> min_row_count thr = 100%Q ->
      fst (run_quality_checks thr issues df name) = false
      /\ snd v1 = [RowCountBelowMinimum name 50 100]
      /\ length (List.filter is_row_count_issue new) = 1%nat).
Proof.
  intros v1 v2 v3 v4 new.
  split; [apply run_quality_checks_unfold|].
  split; [subst v1; unfold _check_row_count; by destruct (Qlt_bool _ _)|].
  split; [subst v2; unfold _check_null_percentage; by destruct (gt_num _ _)|].
  split.
  { subst v3. unfold _check_duplicates.
    destruct (has_column _ _); [|reflexivity]. by destruct (gt_num _ _). }
  split; [reflexivity|].
  intros Hlen Hmin.
  assert (Hv1 : v1 = (false, [RowCountBelowMinimum name 50 100])).
  { subst v1. unfold _check_row_count. rewrite Hlen, Hmin. reflexivity. }
  rewrite run_quality_checks_unfold. fold v1 v2 v3 v4.
  subst new. rewrite Hv1. simpl. split; [reflexivity|]. split; [reflexivity|].
  f_equal. rewrite !List.filter_app.
  assert (H2 : List.filter is_row_count_issue (snd v2) = []).
  { subst v2. unfold _check_null_percentage. by destruct (gt_num _ _). }
  assert (H3 : List.filter is_row_count_issue (snd v3) = []).
  { subst v3. unfold _check_duplicates.
    destruct (has_column _ _); [|reflexivity]. by destruct (gt_num _ _). }
  by rewrite H2, H3.
Qed.

(** C10. On a batch without rows the two density checks divide zero by
    zero, which numpy evaluates to [nan] without raising, and [nan]
    exceeds no threshold: both checks pass and record nothing.  With a
    positive [min_row_count] the gate answers false because of the row
    count alone and appends exactly that one message. *)
Theorem run_quality_checks_empty_batch (thr : thresholds)
    (issues : list issue) (df : DataFrame) (name : string) :
  rows df = [] ->
  (0 < min_row_count thr)%Q ->
  np_truediv (Z.of_nat (total_nulls df))
    (Z.of_nat (len df) * Z.of_nat (length (columns df))) = Null
  /\ _check_null_percentage thr issues df name = (true, issues)
  /\ _check_duplicates thr issues df name = (true, issues)
  /\ _check_data_types issues df name = (true, issues)
  /\ run_quality_checks thr issues df name
     = (false, issues ++ [RowCountBelowMinimum name 0 (min_row_count thr)]).
Proof.
  intros Hrows Hmin.
  assert (Hnull : _check_null_percentage thr issues df name = (true, issues)).
  { unfold _check_null_percentage, len.
    rewrite (total_nulls_empty df Hrows), Hrows. reflexivity. }
  assert (Hdup : _check_duplicates thr issues df name = (true, issues)).
  { unfold _check_duplicates, len. rewrite Hrows.
    destruct (has_column _ _); reflexivity. }
  assert (Hrow : _check_row_count thr issues df name
                 = (false, issues ++ [RowCountBelowMinimum name 0
                                        (min_row_count thr)])).
  { unfold _check_row_count, len. rewrite Hrows. simpl length.
    apply Qlt_bool_iff in Hmin. change (inject_Z (Z.of_nat 0)) with 0%Q.
    by rewrite Hmin. }
  split.
  { unfold len. rewrite (total_nulls_empty df Hrows), Hrows. reflexivity. }
  split; [exact Hnull|]. split; [exact Hdup|]. split; [reflexivity|].
  unfold run_quality_checks. rewrite Hrow.
  rewrite (check_null_percentage_frame thr (issues ++ _)).
  rewrite (check_duplicates_frame thr ((issues ++ _) ++ _)).
  rewrite (check_null_percentage_frame thr issues) in Hnull.
  rewrite (check_duplicates_frame thr issues) in Hdup.
  injection Hnull as Hn1 Hn2. injection Hdup as Hd1 Hd2.
  apply (f_equal (@length issue)) in Hn2, Hd2. rewrite length_app in Hn2, Hd2.
  destruct (snd (_check_null_percentage thr [] df name)); [|simpl in Hn2; lia].
  destruct (snd (_check_duplicates thr [] df name)); [|simpl in Hd2; lia].
  rewrite Hn1, Hd1. simpl. by rewrite !app_nil_r.
Qed.

(** ** The transformation pipeline *)

Section Pipeline.

Variable to_numeric_obj : value -> value.
Variable to_datetime_obj : value -> value.
Variable str_obj : value -> string.

Lemma in_columns_add_label c d cols :
  in_columns c (add_label d cols) = in_columns c cols || String.eqb c d.
Proof.
  unfold add_label. destruct (in_columns d cols) eqn:E.
  - destruct (String.eqb c d) eqn:Ecd; [|by rewrite orb_false_r].
    apply String.eqb_eq in Ecd. subst. by rewrite E.
  - unfold in_columns. rewrite existsb_app. simpl. by rewrite orb_false_r.
Qed.

Lemma add_label_present c cols :
  in_columns c cols = true -> add_label c cols = cols.
Proof. unfold add_label. by intros ->. Qed.

Ltac settle :=
  simpl;
  repeat progress
    (rewrite ?in_columns_add_label, ?orb_false_r, ?orb_true_r;
     repeat match goal with
            | H : in_columns ?c ?cols = true |- context [add_label ?c ?cols] =>
                rewrite (add_label_present c cols H)
            | H : in_columns _ _ = _ |- _ => rewrite H
            end;
     simpl).

Lemma handle_missing_values_nf df :
  _handle_missing_values df
  = match first_missing ["transaction_id"; "customer_id"; "amount";
                         "category"; "merchant_id"] (columns df) with
    | Some c => Raise (KeyError c)
    | None => Ok (mkDataFrame (columns df) (rows2 (rows df)))
    end.
Proof.
  unfold _handle_missing_values, first_missing, critical_fields. simpl.
  unfold update, assign_from, where_, has_column. simpl.
  destruct (in_columns "transaction_id" (columns df)) eqn:E1; simpl; [|reflexivity].
  destruct (in_columns "customer_id" (columns df)) eqn:E2; simpl; [|reflexivity].
  destruct (in_columns "amount" (columns df)) eqn:E3; simpl; [|reflexivity].
  destruct (in_columns "category" (columns df)) eqn:E4; simpl; [|reflexivity].
  settle.
  destruct (in_columns "merchant_id" (columns df)) eqn:E5; settle; [|reflexivity].
  unfold rows2. rewrite map_map. reflexivity.
Qed.

Lemma validate_data_types_nf df :
  _validate_data_types to_numeric_obj to_datetime_obj str_obj df
  = match first_missing ["transaction_date"; "amount"; "transaction_id";
                         "customer_id"; "merchant_id"; "status";
                         "category"; "payment_method"] (columns df) with
    | Some c => Raise (KeyError c)
    | None =>
        Ok (mkDataFrame (columns df)
              (rows3 to_numeric_obj to_datetime_obj str_obj (rows df)))
    end.
Proof.
  unfold _validate_data_types, first_missing, rows3, coerce_dates.
  unfold update, assign_from, where_, has_column. simpl.
  destruct (in_columns "transaction_date" (columns df)) eqn:E1; simpl;
    [|reflexivity].
  destruct (is_datetime64 "transaction_date" (rows df)); simpl.
  all: settle.
  all: destruct (in_columns "amount" (columns df)) eqn:E2; settle;
    [|reflexivity].
  all: destruct (in_columns "transaction_id" (columns df)) eqn:E3; settle;
    [|reflexivity].
  all: destruct (in_columns "customer_id" (columns df)) eqn:E4; settle;
    [|reflexivity].
  all: destruct (in_columns "merchant_id" (columns df)) eqn:E5; settle;
    [|reflexivity].
  all: destruct (in_columns "status" (columns df)) eqn:E6; settle;
    [|reflexivity].
  all: destruct (in_columns "category" (columns df)) eqn:E7; settle;
    [|reflexivity].
  all: destruct (in_columns "payment_method" (columns df)) eqn:E8; settle;
    [|reflexivity].
  all: unfold standardize_row, keep; rewrite ?map_map; reflexivity.
Qed.

Lemma apply_business_rules_nf clk df :
  _apply_business_rules clk df
  = match first_missing ["amount"; "status"; "transaction_date"]
            (columns df) with
    | Some c => Raise (KeyError c)
    | None => Ok (mkDataFrame (columns df) (rows4 clk (rows df)))
    end.
Proof.
  unfold _apply_business_rules, first_missing, rows4, where_, has_column.
  simpl.
  destruct (in_columns "amount" (columns df)) eqn:E1; settle; [|reflexivity].
  destruct (in_columns "status" (columns df)) eqn:E2; settle; [|reflexivity].
  destruct (in_columns "transaction_date" (columns df)) eqn:E3; settle;
    reflexivity.
Qed.

Lemma in_columns_add_label_same c cols :
  in_columns c (add_label c cols) = true.
Proof. by rewrite in_columns_add_label, String.eqb_refl, orb_true_r. Qed.

Lemma in_columns_add_label_keep c d cols :
  in_columns c cols = true -> in_columns c (add_label d cols) = true.
Proof. intros H. by rewrite in_columns_add_label, H. Qed.

Lemma in_columns_add_label_absent c d cols :
  c <> d -> in_columns c cols = false ->
  in_columns c (add_label d cols) = false.
Proof.
  intros Hne H. rewrite in_columns_add_label, H. simpl.
  by apply String.eqb_neq.
Qed.

Lemma assign_from_ok src dst f cols rs :
  in_columns src cols = true ->
  assign_from src dst f (mkDataFrame cols rs)
  = Ok (mkDataFrame (add_label dst cols) (List.map (set_row src dst f) rs)).
Proof. unfold assign_from, has_column. simpl. by intros ->. Qed.

Lemma assign_from_raise src dst f cols rs :
  in_columns src cols = false ->
  assign_from src dst f (mkDataFrame cols rs) = Raise (KeyError src).
Proof. unfold assign_from, has_column. simpl. by intros ->. Qed.

Lemma add_where_ok src p dst k cols rs :
  in_columns src cols = true ->
  in_columns dst cols = true ->
  add_where src p dst k (mkDataFrame cols rs)
  = Ok (mkDataFrame cols (List.map (bump_row src p dst k) rs)).
Proof. unfold add_where, has_column. simpl. by intros -> ->. Qed.

Lemma add_where_raise src p dst k cols rs :
  in_columns src cols = false ->
  add_where src p dst k (mkDataFrame cols rs) = Raise (KeyError src).
Proof. unfold add_where, has_column. simpl. by intros ->. Qed.

Lemma bind_Ok_l {A B : Type} (a : A) (k : A -> result B) :
  Ok a ≫= k = k a.
Proof. reflexivity. Qed.

Ltac present :=
  repeat first
    [ assumption
    | apply in_columns_add_label_same
    | apply in_columns_add_label_keep ].

Ltac absent :=
  repeat first
    [ assumption
    | apply in_columns_add_label_absent; [discriminate|] ].

Ltac step :=
  first
    [ rewrite assign_from_ok by present
    | rewrite add_where_ok by present
    | rewrite assign_from_raise by absent
    | rewrite add_where_raise by absent ];
  try (rewrite bind_Ok_l; cbv beta zeta).

Lemma add_derived_fields_nf clk df :
  _add_derived_fields clk df
  = match first_missing ["transaction_date"; "amount"; "status"]
            (columns df) with
    | Some c => Raise (KeyError c)
    | None =>
        Ok (mkDataFrame (derived_columns (columns df))
              (List.map (derive_row clk) (rows df)))
    end.
Proof.
  destruct df as [cols rs].
  unfold _add_derived_fields, first_missing, assign.
  cbn [List.find columns rows].
  destruct (in_columns "transaction_date" cols) eqn:E1; cbn [negb].
  2: { by step. }
  destruct (in_columns "amount" cols) eqn:E2; cbn [negb].
  2: { do 6 step. reflexivity. }
  destruct (in_columns "status" cols) eqn:E3; cbn [negb].
  2: { do 6 step. cbn [columns rows]. do 3 step. reflexivity. }
  do 6 step. cbn [columns rows]. do 6 step. cbn [columns rows].
  rewrite !map_map.
  unfold derived_columns, derive_row, score_row, calendar_row.
  reflexivity.
Qed.

Ltac column c cols :=
  destruct (in_columns c cols) eqn:?; cbn [negb]; [|reflexivity].

Ltac next_stage lem :=
  rewrite bind_Ok_l; cbv beta; rewrite lem;
  unfold first_missing; cbn [List.find columns rows];
  repeat match goal with
         | H : in_columns _ _ = true |- _ => rewrite H
         end;
  cbn [negb].

Lemma stages_1_5_nf clk df :
  stages_1_5 to_numeric_obj to_datetime_obj str_obj clk df
  = match first_missing raw_columns (columns df) with
    | Some c => Raise (KeyError c)
    | None =>
        Ok (mkDataFrame (derived_columns (columns df))
              (rows_1_5 to_numeric_obj to_datetime_obj str_obj clk
                 (rows df)))
    end.
Proof.
  destruct df as [cols rs].
  unfold stages_1_5, _remove_duplicates, has_column, first_missing,
    raw_columns.
  cbn [List.find columns rows].
  column "transaction_id" cols.
  next_stage handle_missing_values_nf.
  column "customer_id" cols. column "amount" cols.
  column "category" cols. column "merchant_id" cols.
  next_stage validate_data_types_nf.
  column "transaction_date" cols. column "status" cols.
  column "payment_method" cols.
  next_stage apply_business_rules_nf.
  next_stage add_derived_fields_nf.
  reflexivity.
Qed.

Lemma transform_transactions_unfold clk qr df :
  transform_transactions to_numeric_obj to_datetime_obj str_obj clk qr df
  = (df5 ← stages_1_5 to_numeric_obj to_datetime_obj str_obj clk df;
     df6 ← _final_validation df5;
     Ok (df6,
         <["transactions" := report_of clk (Z.of_nat (len df)) df6]> qr)).
Proof.
  unfold transform_transactions, stages_1_5.
  destruct (_remove_duplicates df) as [df1|]; [|reflexivity].
  rewrite !bind_Ok_l.
  destruct (_handle_missing_values df1) as [df2|]; [|reflexivity].
  rewrite !bind_Ok_l.
  destruct (_validate_data_types _ _ _ df2) as [df3|]; [|reflexivity].
  rewrite !bind_Ok_l.
  destruct (_apply_business_rules clk df3) as [df4|]; [|reflexivity].
  rewrite !bind_Ok_l.
  destruct (_add_derived_fields clk df4) as [df5|]; reflexivity.
Qed.

Lemma filter_none {A : Type} (p : A -> bool) (l : list A) :
  (forall x, In x l -> p x = false) -> List.filter p l = [].
Proof.
  induction l as [|x l IH]; intros H; simpl; [reflexivity|].
  rewrite (H x) by (by left). apply IH. intros y Hy. apply H. by right.
Qed.

Lemma final_validation_nf df :
  (forall f, In f required_fields -> has_column f df = true) ->
  _final_validation df
  = if (0 <? list_sum (List.map (fun f => null_count f df) required_fields))%nat
    then Raise ValueError_critical_nulls
    else Ok df.
Proof.
  intros H. unfold _final_validation.
  rewrite filter_none; [reflexivity|].
  intros f Hf. by rewrite (H f Hf).
Qed.

Lemma first_missing_None cs cols :
  first_missing cs cols = None <->
  (forall c, c ∈ cs -> in_columns c cols = true).
Proof.
  unfold first_missing. split.
  - intros H c Hc. apply list_elem_of_In in Hc.
    apply (find_none _ _ H) in Hc. by apply negb_false_iff in Hc.
  - intros H. induction cs as [|c cs IH]; simpl; [reflexivity|].
    rewrite (H c) by (by left). simpl. apply IH.
    intros c' Hc'. apply H. by right.
Qed.


Lemma raw_present_inv cols :
  (forall c, c ∈ raw_columns -> in_columns c cols = true) ->
  in_columns "transaction_id" cols = true
  /\ in_columns "customer_id" cols = true
  /\ in_columns "amount" cols = true
  /\ in_columns "category" cols = true
  /\ in_columns "merchant_id" cols = true
  /\ in_columns "transaction_date" cols = true
  /\ in_columns "status" cols = true
  /\ in_columns "payment_method" cols = true.
Proof.
  intros H. repeat split; apply H; unfold raw_columns;
    repeat first [ by left | right ].
Qed.

Lemma required_present cols :
  (forall c, c ∈ raw_columns -> in_columns c cols = true) ->
  forall f, In f required_fields -> in_columns f (derived_columns cols) = true.
Proof.
  intros H. apply raw_present_inv in H.
  destruct H as (E1 & E2 & E3 & E4 & E5 & E6 & E7 & E8).
  intros f Hf. unfold required_fields in Hf. simpl in Hf.
  unfold derived_columns.
  repeat (destruct Hf as [<-|Hf]; [present|]). destruct Hf.
Qed.

Lemma transform_transactions_nf clk qr df :
  transform_transactions to_numeric_obj to_datetime_obj str_obj clk qr df
  = match first_missing raw_columns (columns df) with
    | Some c => Raise (KeyError c)
    | None =>
        let df5 :=
          mkDataFrame (derived_columns (columns df))
            (rows_1_5 to_numeric_obj to_datetime_obj str_obj clk (rows df))
        in
        if (0 <? list_sum (List.map (fun f => null_count f df5)
                             required_fields))%nat
        then Raise ValueError_critical_nulls
        else Ok (df5,
                 <["transactions" := report_of clk (Z.of_nat (len df)) df5]>
                   qr)
    end.
Proof.
  rewrite transform_transactions_unfold, stages_1_5_nf.
  destruct (first_missing raw_columns (columns df)) eqn:E; [reflexivity|].
  rewrite bind_Ok_l. cbv beta zeta.
  rewrite final_validation_nf.
  - by destruct (0 <? _)%nat.
  - intros f Hf. unfold has_column. cbn [columns].
    apply required_present; [|exact Hf]. by apply first_missing_None.
Qed.

Lemma list_sum_pos {A : Type} (g : A -> nat) (l : list A) :
  (0 <? list_sum (List.map g l))%nat = true <->
  exists x, x ∈ l /\ (0 < g x)%nat.
Proof.
  rewrite Nat.ltb_lt. induction l as [|x l IH]; simpl.
  - split; [lia|]. intros (x & Hx & _). by apply elem_of_nil in Hx.
  - split.
    + intros H. destruct (Nat.eq_dec (g x) 0%nat) as [E|E].
      * rewrite E in H. apply IH in H as (y & Hy & Hg).
        exists y. split; [by right|exact Hg].
      * exists x. split; [by left|lia].
    + intros (y & Hy & Hg). apply elem_of_cons in Hy as [->|Hy]; [lia|].
      assert (0 < list_sum (List.map g l))%nat by (apply IH; eauto). lia.
Qed.

Lemma null_count_pos c df :
  (0 < null_count c df)%nat <-> exists r, r ∈ rows df /\ r !!! c = Null.
Proof.
  unfold null_count. induction (rows df) as [|r rs IH]; simpl.
  - split; [lia|]. intros (r & Hr & _). by apply elem_of_nil in Hr.
  - destruct (r !!! c) eqn:E; simpl.
    1: { split; [|lia]. intros _. exists r. split; [by left|exact E]. }
    all: rewrite IH; split;
      [ intros (r' & Hr' & Hn); exists r'; split; [by right|exact Hn]
      | intros (r' & Hr' & Hn); apply elem_of_cons in Hr' as [->|Hr'];
        [congruence|eauto] ].
Qed.

Lemma critical_nulls_iff df :
  (0 <? list_sum (List.map (fun f => null_count f df) required_fields))%nat
  = true
  <-> exists f r, f ∈ required_fields /\ r ∈ rows df /\ r !!! f = Null.
Proof.
  rewrite list_sum_pos. split.
  - intros (f & Hf & Hpos). apply null_count_pos in Hpos as (r & Hr & Hn).
    eauto.
  - intros (f & r & Hf & Hr & Hn). exists f. split; [exact Hf|].
    apply null_count_pos. eauto.
Qed.

(** *** Rows *)

Lemma keep_In r c p rs :
  In r (keep c p rs) <-> In r rs /\ p (r !!! c) = true.
Proof. unfold keep. apply filter_In. Qed.

Lemma keep_length c p rs : (length (keep c p rs) <= length rs)%nat.
Proof. unfold keep. apply filter_length_le. Qed.

Lemma put_row_eq dst v (r : row) : put_row dst v r !!! dst = v.
Proof. unfold put_row. apply lookup_total_insert_eq. Qed.

Lemma put_row_ne c dst v (r : row) :
  c <> dst -> put_row dst v r !!! c = r !!! c.
Proof. intros H. unfold put_row. by apply lookup_total_insert_ne. Qed.

Lemma set_row_eq src dst f (r : row) :
  set_row src dst f r !!! dst = f (r !!! src).
Proof. unfold set_row. apply lookup_total_insert_eq. Qed.

Lemma set_row_ne c src dst f (r : row) :
  c <> dst -> set_row src dst f r !!! c = r !!! c.
Proof. intros H. unfold set_row. by apply lookup_total_insert_ne. Qed.

Lemma bump_row_eq src p dst k (r : row) :
  bump_row src p dst k r !!! dst
  = if p (r !!! src) then add_num (r !!! dst) k else r !!! dst.
Proof.
  unfold bump_row. destruct (p (r !!! src)); [|reflexivity].
  apply lookup_total_insert_eq.
Qed.

Lemma bump_row_ne c src p dst k (r : row) :
  c <> dst -> bump_row src p dst k r !!! c = r !!! c.
Proof.
  intros H. unfold bump_row. destruct (p (r !!! src)); [|reflexivity].
  by apply lookup_total_insert_ne.
Qed.

Ltac other_cells :=
  repeat first
    [ rewrite put_row_ne by discriminate
    | rewrite set_row_ne by discriminate
    | rewrite bump_row_ne by discriminate ].

Lemma rows2_length rs : (length (rows2 rs) <= length rs)%nat.
Proof.
  unfold rows2. rewrite length_map.
  etransitivity; [apply keep_length|].
  etransitivity; [apply keep_length|]. apply keep_length.
Qed.

Lemma rows3_length rs :
  (length (rows3 to_numeric_obj to_datetime_obj str_obj rs) <= length rs)%nat.
Proof.
  unfold rows3. rewrite length_map.
  etransitivity; [apply keep_length|].
  etransitivity; [apply keep_length|]. rewrite length_map.
  unfold coerce_dates. destruct (is_datetime64 _ _); [lia|].
  by rewrite length_map.
Qed.

Lemma rows4_length clk rs : (length (rows4 clk rs) <= length rs)%nat.
Proof.
  unfold rows4. do 4 (etransitivity; [apply keep_length|]).
  apply keep_length.
Qed.

Lemma rows_1_5_length clk rs :
  (length (rows_1_5 to_numeric_obj to_datetime_obj str_obj clk rs)
   <= length rs)%nat.
Proof.
  unfold rows_1_5. rewrite length_map.
  etransitivity; [apply rows4_length|].
  etransitivity; [apply rows3_length|].
  etransitivity; [apply rows2_length|]. apply drop_duplicates_length.
Qed.

Lemma rows4_amount clk rs r :
  In r (rows4 clk rs) ->
  gt_num (r !!! "amount") 0 = true /\ le_num (r !!! "amount") 1000000 = true.
Proof.
  unfold rows4. intros H.
  apply keep_In in H as [H _]. apply keep_In in H as [H _].
  apply keep_In in H as [H _]. apply keep_In in H as [H Hle].
  apply keep_In in H as [_ Hgt]. by split.
Qed.

Lemma amount_in_range v :
  gt_num v 0 = true -> le_num v 1000000 = true ->
  exists a, v = Num a /\ (0 < a)%Q /\ (a <= 1000000)%Q.
Proof.
  destruct v as [|s|q|b|z]; simpl; try discriminate.
  - intros Hgt Hle. exists q. split; [reflexivity|].
    split; [by apply Qlt_bool_iff|by apply Qle_bool_iff].
  - destruct b; discriminate.
Qed.

Lemma derive_row_amount clk r :
  derive_row clk r !!! "amount" = r !!! "amount".
Proof.
  unfold derive_row, score_row, calendar_row. by other_cells.
Qed.

Lemma bump_row_nonneg src p k r :
  (0 <= k)%Q -> nonneg_score r ->
  nonneg_score (bump_row src p "risk_score" k r).
Proof.
  intros Hk (s & Hs & Hpos). unfold nonneg_score. rewrite bump_row_eq, Hs.
  destruct (p (r !!! src)); simpl.
  - exists (s + k)%Q. split; [reflexivity|].
    rewrite <- (Qplus_0_r 0). by apply Qplus_le_compat.
  - by exists s.
Qed.

Lemma score_row_nonneg r : nonneg_score (score_row r).
Proof.
  unfold score_row.
  do 5 (apply bump_row_nonneg; [discriminate|]).
  exists 0%Q. split; [apply put_row_eq|apply Qle_refl].
Qed.

Lemma derive_row_score clk r : nonneg_score (derive_row clk r).
Proof.
  unfold derive_row, nonneg_score. other_cells. apply score_row_nonneg.
Qed.

(** *** The pipeline as a whole *)


(** C4. Every record of a successful output has an amount above 0 and at
    most 1,000,000, and a risk score that is a number not below 0. *)
Theorem transform_output_ranges clk qr df df' qr' :
  transform_transactions to_numeric_obj to_datetime_obj str_obj clk qr df
  = Ok (df', qr') ->
  forall r, r ∈ rows df' ->
    exists a s,
      r !!! "amount" = Num a /\ (0 < a)%Q /\ (a <= 1000000)%Q
      /\ r !!! "risk_score" = Num s /\ (0 <= s)%Q.
Proof.
  rewrite transform_transactions_nf.
  destruct (first_missing raw_columns (columns df)); [discriminate|].
  cbv zeta. destruct (0 <? _)%nat; [discriminate|].
  intros [= <- <-] r Hr. cbn [rows] in Hr. unfold rows_1_5 in Hr.
  apply list_elem_of_In, in_map_iff in Hr as (r0 & <- & Hr0).
  apply rows4_amount in Hr0 as [Hgt Hle].
  destruct (amount_in_range _ Hgt Hle) as (a & Ha & Hlo & Hhi).
  destruct (derive_row_score clk r0) as (s & Hs & Hpos).
  exists a, s. rewrite derive_row_amount. by repeat split.
Qed.

(** C6. After a successful call the entry stored under ["transactions"]
    counts the rows of the input and of the output, its removed count
    is their difference, and its removal percentage is the removed
    count over the initial count times 100, or 0 when the input had no
    rows. *)
Theorem transform_report_consistent clk qr df df' qr' :
  transform_transactions to_numeric_obj to_datetime_obj str_obj clk qr df
  = Ok (df', qr') ->
  exists e,
    qr' !! "transactions" = Some e
    /\ initial_records e = Z.of_nat (len df)
    /\ final_records e = Z.of_nat (len df')
    /\ initial_records e - final_records e = records_removed e
    /\ 0 <= records_removed e
    /\ (0 < initial_records e ->
        removal_percentage e
        = (inject_Z (records_removed e) / inject_Z (initial_records e)
           * 100)%Q)
    /\ (initial_records e = 0 -> removal_percentage e = 0%Q).
Proof.
  rewrite transform_transactions_nf.
  destruct (first_missing raw_columns (columns df)); [discriminate|].
  cbv zeta. destruct (0 <? _)%nat; [discriminate|].
  intros [= <- <-]. eexists. split; [apply lookup_insert_eq|].
  unfold report_of. cbn [initial_records final_records records_removed
                           removal_percentage].
  split; [reflexivity|]. split; [reflexivity|]. split; [reflexivity|].
  split.
  { unfold len. cbn [rows].
    pose proof (rows_1_5_length clk (rows df)). lia. }
  split.
  - intros Hpos. apply Z.ltb_lt in Hpos. by rewrite Hpos.
  - intros ->. reflexivity.
Qed.

Lemma risk_level_above_100 q :
  (100 < q)%Q -> cut_from (-1) risk_bins (Num q) = Null.
Proof.
  intros H.
  assert (Hle : forall h, (h <= 100)%Q -> Qle_bool q h = false).
  { intros h Hh. destruct (Qle_bool q h) eqn:E; [|reflexivity].
    apply Qle_bool_iff in E. exfalso.
    apply (Qlt_irrefl q). eapply Qle_lt_trans; [exact E|].
    eapply Qle_lt_trans; [exact Hh|exact H]. }
  unfold risk_bins, cut_from, above, upto, le_num.
  rewrite !Hle by discriminate. by rewrite !andb_false_r.
Qed.

Lemma drop_duplicates_In key rs :
  forall seen r, In r (drop_duplicates key seen rs) -> In r rs.
Proof.
  induction rs as [|r0 rs IH]; intros seen r; simpl; [tauto|].
  destruct (isin seen (key r0)).
  - intros H. right. by apply (IH seen).
  - intros [->|H]; [by left|]. right. by apply (IH (key r0 :: seen)).
Qed.

Lemma rows4_In clk rs r : In r (rows4 clk rs) -> In r rs.
Proof.
  unfold rows4. intros H. do 5 (apply keep_In in H as [H _]). exact H.
Qed.

Lemma fill_row_merchant r :
  fill_row r !!! "merchant_id"
  = fillna (Str "MERCH0000") (r !!! "merchant_id").
Proof. unfold fill_row. rewrite set_row_eq. by other_cells. Qed.

Lemma fill_row_id r : fill_row r !!! "transaction_id" = r !!! "transaction_id".
Proof. unfold fill_row. by other_cells. Qed.

Lemma standardize_row_merchant r :
  standardize_row str_obj r !!! "merchant_id"
  = standardize str_obj upper (r !!! "merchant_id").
Proof.
  unfold standardize_row. cbv zeta. other_cells. rewrite set_row_eq.
  by other_cells.
Qed.

Lemma standardize_row_id r :
  standardize_row str_obj r !!! "transaction_id"
  = standardize str_obj upper (r !!! "transaction_id").
Proof.
  unfold standardize_row. cbv zeta. other_cells. by rewrite set_row_eq.
Qed.

Lemma derive_row_raw clk r c :
  In c raw_columns -> derive_row clk r !!! c = r !!! c.
Proof.
  unfold raw_columns. simpl. intros H.
  unfold derive_row, score_row, calendar_row.
  repeat (destruct H as [<-|H]; [by other_cells|]). destruct H.
Qed.

(** Where a record of the output comes from: a record of the input,
    with its merchant filled and its identifiers standardized. *)
Lemma output_row_origin clk rs r' :
  In r' (rows_1_5 to_numeric_obj to_datetime_obj str_obj clk rs) ->
  exists r,
    In r rs
    /\ r' !!! "transaction_id"
       = standardize str_obj upper (r !!! "transaction_id")
    /\ r' !!! "merchant_id"
       = standardize str_obj upper
           (fillna (Str "MERCH0000") (r !!! "merchant_id")).
Proof.
  unfold rows_1_5. intros H.
  apply in_map_iff in H as (r4 & <- & H). apply rows4_In in H.
  unfold rows3 in H. apply in_map_iff in H as (r3 & <- & H).
  do 2 (apply keep_In in H as [H _]).
  apply in_map_iff in H as (r3' & <- & H).
  assert (Hr2 : exists r2, In r2 (rows2 (drop_duplicates
                   (fun r => r !!! "transaction_id") [] rs))
                /\ r3' !!! "transaction_id" = r2 !!! "transaction_id"
                /\ r3' !!! "merchant_id" = r2 !!! "merchant_id").
  { unfold coerce_dates in H. destruct (is_datetime64 _ _); [by eauto|].
    apply in_map_iff in H as (r2 & <- & H). exists r2.
    split; [exact H|]. by other_cells. }
  destruct Hr2 as (r2 & H2 & Hid & Hm). unfold rows2 in H2.
  apply in_map_iff in H2 as (r1 & <- & H1).
  do 3 (apply keep_In in H1 as [H1 _]). apply drop_duplicates_In in H1.
  exists r1. split; [exact H1|].
  rewrite !derive_row_raw by (unfold raw_columns; simpl; tauto).
  rewrite standardize_row_id, standardize_row_merchant.
  other_cells. by rewrite Hid, Hm, fill_row_id, fill_row_merchant.
Qed.

(** C7. A record of a successful output comes from a record of the
    input, and when that record had no merchant its [merchant_id] is
    ["MERCH0000"]: the record is kept, and what fills the field is
    this merchant code, not ["unknown"] nor ["UNKNOWN"]. *)
Theorem null_merchant_filled_with_MERCH0000 clk qr df df' qr' :
  transform_transactions to_numeric_obj to_datetime_obj str_obj clk qr df
  = Ok (df', qr') ->
  forall r', r' ∈ rows df' ->
    exists r,
      r ∈ rows df
      /\ r' !!! "transaction_id"
         = standardize str_obj upper (r !!! "transaction_id")
      /\ (r !!! "merchant_id" = Null ->
          r' !!! "merchant_id" = Str "MERCH0000"
          /\ r' !!! "merchant_id" <> Str "unknown"
          /\ r' !!! "merchant_id" <> Str "UNKNOWN").
Proof.
  rewrite transform_transactions_nf.
  destruct (first_missing raw_columns (columns df)); [discriminate|].
  cbv zeta. destruct (0 <? _)%nat; [discriminate|].
  intros [= <- <-] r' Hr'. cbn [rows] in Hr'.
  apply list_elem_of_In, output_row_origin in Hr' as (r & Hr & Hid & Hm).
  exists r. split; [by apply list_elem_of_In|]. split; [exact Hid|].
  intros Hnull. rewrite Hm, Hnull. by vm_compute.
Qed.


Lemma rows4_date clk rs r :
  In r (rows4 clk rs) -> exists t, r !!! "transaction_date" = Timestamp t.
Proof.
  unfold rows4. intros H. apply keep_In in H as [_ H].
  destruct (r !!! "transaction_date"); try discriminate. eauto.
Qed.


Lemma derive_row_level clk r :
  derive_row clk r !!! "risk_level"
  = cut_from (-1) risk_bins (derive_row clk r !!! "risk_score").
Proof.
  unfold derive_row. other_cells. rewrite set_row_eq. by other_cells.
Qed.

(** A call that returns has found a bucket for every score: no record of
    a successful output has a risk score above 100. *)
Lemma successful_output_score_at_most_100 clk qr df df' qr' :
  transform_transactions to_numeric_obj to_datetime_obj str_obj clk qr df
  = Ok (df', qr') ->
  forall r, r ∈ rows df' ->
    exists s, r !!! "risk_score" = Num s /\ (s <= 100)%Q
              /\ r !!! "risk_level" <> Null.
Proof.
  rewrite transform_transactions_nf.
  destruct (first_missing raw_columns (columns df)); [discriminate|].
  cbv zeta. destruct (0 <? _)%nat eqn:E; [discriminate|].
  intros [= <- <-] r Hr.
  assert (Hlevel : r !!! "risk_level" <> Null).
  { intros Hnull. apply not_true_iff_false in E. apply E.
    apply critical_nulls_iff. exists "risk_level", r.
    split; [|by split]. unfold required_fields.
    repeat first [ by left | right ]. }
  cbn [rows] in Hr. unfold rows_1_5 in Hr.
  apply list_elem_of_In, in_map_iff in Hr as (r0 & <- & _).
  destruct (derive_row_score clk r0) as (s & Hs & _).
  exists s. split; [exact Hs|]. split; [|exact Hlevel].
  apply Qnot_lt_le. intros Habove. apply Hlevel.
  rewrite derive_row_level, Hs. by apply risk_level_above_100.
Qed.

(** C1. The record of the scenario (amount 12000, failed, Sunday at
    02:00) gets the risk score 150, for which [pd.cut] with the bins
    [-1, 20, 50, 80, 100] has no bucket: its risk level is null and not
    ["critical"], and the final validation then fails the whole batch. *)
Theorem risky_record_has_no_risk_level :
  cut_from (-1) risk_bins (Num 150) = Null
  /\ List.map (fun r : row => (r !!! "risk_score", r !!! "risk_level"))
       (rows_1_5 to_numeric_obj to_datetime_obj str_obj example_clock
          (rows risky_batch))
     = [(Num 150, Null)]
  /\ transform_transactions to_numeric_obj to_datetime_obj str_obj
       example_clock ∅ risky_batch
     = Raise ValueError_critical_nulls.
Proof. by vm_compute. Qed.

(** C2. Two records whose raw ids differ only in letter case and in a
    trailing blank both pass the deduplication of stage 1; stage 3 then
    gives them the same id, and the call returns a batch in which that
    id occurs twice. *)
Theorem same_id_batch_output_not_unique :
  exists df' qr',
    transform_transactions to_numeric_obj to_datetime_obj str_obj
      example_clock ∅ same_id_batch
    = Ok (df', qr')
    /\ List.map (fun r : row => r !!! "transaction_id") (rows df')
       = [Str "TXN00000002"; Str "TXN00000002"]
    /\ ~ NoDup (List.map (fun r : row => r !!! "transaction_id") (rows df')).
Proof.
  assert (Hids :
    List.map (fun r : row => r !!! "transaction_id")
      (rows_1_5 to_numeric_obj to_datetime_obj str_obj example_clock
         (rows same_id_batch))
    = [Str "TXN00000002"; Str "TXN00000002"]) by (by vm_compute).
  eexists _, _. rewrite transform_transactions_nf.
  replace (first_missing raw_columns (columns same_id_batch))
    with (@None string) by (by vm_compute).
  cbv zeta.
  match goal with
  | |- context [if ?c then _ else _] =>
      replace c with false by (by vm_compute)
  end.
  split; [reflexivity|]. cbn [rows]. rewrite Hids. split; [reflexivity|].
  intros H. apply NoDup_cons in H as [H _]. apply H. by left.
Qed.

(** *** The stages one by one *)

Lemma filter_filter_and {A : Type} (p q : A -> bool) (l : list A) :
  List.filter q (List.filter p l) = List.filter (fun x => p x && q x) l.
Proof.
  induction l as [|x l IH]; simpl; [reflexivity|].
  destruct (p x); simpl; [|exact IH]. destruct (q x); by rewrite IH.
Qed.

Lemma rows4_filter clk rs : rows4 clk rs = List.filter (passes_rules clk) rs.
Proof.
  unfold rows4, keep. rewrite !filter_filter_and. apply List.filter_ext.
  intros r. unfold passes_rules. by rewrite !andb_assoc.
Qed.

Lemma value_eqb_Str v s : value_eqb v (Str s) = true -> v = Str s.
Proof.
  destruct v; simpl; try discriminate. intros H.
  apply String.eqb_eq in H. by subst.
Qed.

Lemma isin_valid_statuses v :
  isin valid_statuses v = true ->
  v = Str "completed" \/ v = Str "pending" \/ v = Str "failed".
Proof.
  unfold isin, valid_statuses. simpl. rewrite !orb_true_iff.
  intros [H|[H|[H|H]]]; [| | |discriminate];
    apply value_eqb_Str in H; tauto.
Qed.

Lemma passes_rules_inv clk r :
  passes_rules clk r = true ->
  (exists a, r !!! "amount" = Num a /\ (0 < a)%Q /\ (a <= 1000000)%Q)
  /\ (r !!! "status" = Str "completed" \/ r !!! "status" = Str "pending"
      \/ r !!! "status" = Str "failed")
  /\ (exists t, r !!! "transaction_date" = Timestamp t
                /\ now_rule5 clk - days_730 <= t <= now_rule4 clk).
Proof.
  unfold passes_rules. rewrite !andb_true_iff.
  intros ((((Hgt & Hle) & Hst) & Hpast) & Hrecent).
  split; [by apply amount_in_range|]. split; [by apply isin_valid_statuses|].
  destruct (r !!! "transaction_date") as [| | | |t]; try discriminate.
  exists t. split; [reflexivity|]. simpl in Hpast, Hrecent. lia.
Qed.

(** X1. [_apply_business_rules], when it returns, returns the input with
    exactly the records that pass all five rules, in their order and
    unchanged: the amount is a number above 0 and at most 1,000,000, the
    status is one of the three valid ones, and the date is a timestamp
    not after the clock and not more than 730 days before it.  The
    result is that of one filter by the conjunction of the rules, so the
    order of the rules does not matter. *)
Theorem apply_business_rules_exact clk df df' :
  _apply_business_rules clk df = Ok df' ->
  columns df' = columns df
  /\ rows df' = List.filter (passes_rules clk) (rows df)
  /\ (forall r, r ∈ rows df' ->
        (exists a, r !!! "amount" = Num a /\ (0 < a)%Q /\ (a <= 1000000)%Q)
        /\ (r !!! "status" = Str "completed" \/ r !!! "status" = Str "pending"
            \/ r !!! "status" = Str "failed")
        /\ (exists t, r !!! "transaction_date" = Timestamp t
                      /\ now_rule5 clk - days_730 <= t <= now_rule4 clk)).
Proof.
  rewrite apply_business_rules_nf.
  destruct (first_missing _ (columns df)); [discriminate|].
  intros [= <-]. cbn [columns rows]. rewrite rows4_filter.
  split; [reflexivity|]. split; [reflexivity|].
  intros r Hr. apply list_elem_of_In, filter_In in Hr as [_ Hr].
  by apply passes_rules_inv.
Qed.

(** X2. Every record of a successful output of [transform_transactions]
    has one of the three valid statuses and a transaction date that is
    not after the clock reading of rule 4 and not more than 730 days
    before the clock reading of rule 5. *)
Theorem transform_output_status_and_date clk qr df df' qr' :
  transform_transactions to_numeric_obj to_datetime_obj str_obj clk qr df
  = Ok (df', qr') ->
  forall r, r ∈ rows df' ->
    (r !!! "status" = Str "completed" \/ r !!! "status" = Str "pending"
     \/ r !!! "status" = Str "failed")
    /\ (exists t, r !!! "transaction_date" = Timestamp t
                  /\ now_rule5 clk - days_730 <= t <= now_rule4 clk).
Proof.
  rewrite transform_transactions_nf.
  destruct (first_missing raw_columns (columns df)); [discriminate|].
  cbv zeta. destruct (0 <? _)%nat; [discriminate|].
  intros [= <- <-] r Hr. cbn [rows] in Hr. unfold rows_1_5 in Hr.
  apply list_elem_of_In, in_map_iff in Hr as (r4 & <- & Hr4).
  rewrite rows4_filter in Hr4. apply filter_In in Hr4 as [_ Hr4].
  apply passes_rules_inv in Hr4 as (_ & Hst & Hdate).
  rewrite !derive_row_raw by (simpl; tauto). by split.
Qed.

(** *** The derived fields *)

Lemma Qle_bool_false s h : Qle_bool s h = false <-> (h < s)%Q.
Proof.
  rewrite <- Qlt_bool_iff. unfold Qlt_bool.
  destruct (Qle_bool s h); simpl; split; congruence.
Qed.

Lemma cut_risk_bins s :
  (-1 < s)%Q ->
  cut_from (-1) risk_bins (Num s)
  = if Qle_bool s 20 then Str "low"
    else if Qle_bool s 50 then Str "medium"
    else if Qle_bool s 80 then Str "high"
    else if Qle_bool s 100 then Str "critical"
    else Null.
Proof.
  intros H. apply Qle_bool_false in H.
  unfold risk_bins, cut_from, above, upto, gt_num, le_num, Qlt_bool.
  rewrite H. simpl.
  destruct (Qle_bool s 20); [reflexivity|]. simpl.
  destruct (Qle_bool s 50); [reflexivity|]. simpl.
  destruct (Qle_bool s 80); [reflexivity|]. simpl.
  destruct (Qle_bool s 100); reflexivity.
Qed.

Lemma cut_amount_bins a :
  (0 < a)%Q ->
  cut_from 0 amount_bins (Num a)
  = if Qle_bool a 50 then Str "small"
    else if Qle_bool a 200 then Str "medium"
    else if Qle_bool a 500 then Str "large"
    else if Qle_bool a 1000 then Str "very_large"
    else Str "exceptional".
Proof.
  intros H. apply Qle_bool_false in H.
  unfold amount_bins, cut_from, above, upto, gt_num, le_num, Qlt_bool.
  rewrite H. simpl.
  destruct (Qle_bool a 50); [reflexivity|]. simpl.
  destruct (Qle_bool a 200); [reflexivity|]. simpl.
  destruct (Qle_bool a 500); [reflexivity|]. simpl.
  destruct (Qle_bool a 1000); reflexivity.
Qed.

Lemma derive_row_category clk r :
  derive_row clk r !!! "amount_category"
  = cut_from 0 amount_bins (r !!! "amount").
Proof.
  unfold derive_row, score_row. other_cells. rewrite set_row_eq.
  unfold calendar_row. by other_cells.
Qed.

(** X3. In a successful output of [transform_transactions] no required
    field of any record is null, the risk score is between 0 and 100, and
    the risk level is the bucket of the score: low up to 20, medium up
    to 50, high up to 80 and critical up to 100, each bound included. *)
Theorem transform_output_risk_level clk qr df df' qr' :
  transform_transactions to_numeric_obj to_datetime_obj str_obj clk qr df
  = Ok (df', qr') ->
  forall r, r ∈ rows df' ->
    (forall f, f ∈ required_fields -> r !!! f <> Null)
    /\ exists s,
         r !!! "risk_score" = Num s /\ (0 <= s)%Q /\ (s <= 100)%Q
         /\ ((s <= 20)%Q -> r !!! "risk_level" = Str "low")
         /\ ((20 < s)%Q -> (s <= 50)%Q -> r !!! "risk_level" = Str "medium")
         /\ ((50 < s)%Q -> (s <= 80)%Q -> r !!! "risk_level" = Str "high")
         /\ ((80 < s)%Q -> r !!! "risk_level" = Str "critical").
Proof.
  intros H r Hr.
  destruct (successful_output_score_at_most_100 _ _ _ _ _ H r Hr)
    as (s & Hs & Hmax & _).
  revert H Hr. rewrite transform_transactions_nf.
  destruct (first_missing raw_columns (columns df)); [discriminate|].
  cbv zeta. destruct (0 <? _)%nat eqn:E; [discriminate|].
  intros [= <- <-] Hr. split.
  { intros f Hf Hnull. apply not_true_iff_false in E. apply E.
    apply critical_nulls_iff. by exists f, r. }
  cbn [rows] in Hr. unfold rows_1_5 in Hr.
  apply list_elem_of_In, in_map_iff in Hr as (r0 & <- & _).
  destruct (derive_row_score clk r0) as (s' & Hs' & Hpos).
  assert (s' = s) as -> by congruence.
  exists s. split; [exact Hs|]. split; [exact Hpos|]. split; [exact Hmax|].
  rewrite derive_row_level, Hs, cut_risk_bins
    by (eapply Qlt_le_trans; [|exact Hpos]; reflexivity).
  apply Qle_bool_iff in Hmax.
  destruct (Qle_bool s 20) eqn:E20;
    [apply Qle_bool_iff in E20|apply Qle_bool_false in E20];
  (destruct (Qle_bool s 50) eqn:E50;
    [apply Qle_bool_iff in E50|apply Qle_bool_false in E50]);
  (destruct (Qle_bool s 80) eqn:E80;
    [apply Qle_bool_iff in E80|apply Qle_bool_false in E80]);
  rewrite ?Hmax;
  repeat split; intros; first [ reflexivity | exfalso; lra ].
Qed.

(** X4. In a successful output every record has an amount category, and
    it is the bucket of the amount with the upper bounds included: small
    up to 50, medium up to 200, large up to 500, very_large up to 1000
    and exceptional above. *)
Theorem transform_output_amount_category clk qr df df' qr' :
  transform_transactions to_numeric_obj to_datetime_obj str_obj clk qr df
  = Ok (df', qr') ->
  forall r, r ∈ rows df' ->
    exists a,
      r !!! "amount" = Num a
      /\ ((a <= 50)%Q -> r !!! "amount_category" = Str "small")
      /\ ((50 < a)%Q -> (a <= 200)%Q ->
          r !!! "amount_category" = Str "medium")
      /\ ((200 < a)%Q -> (a <= 500)%Q ->
          r !!! "amount_category" = Str "large")
      /\ ((500 < a)%Q -> (a <= 1000)%Q ->
          r !!! "amount_category" = Str "very_large")
      /\ ((1000 < a)%Q -> r !!! "amount_category" = Str "exceptional").
Proof.
  rewrite transform_transactions_nf.
  destruct (first_missing raw_columns (columns df)); [discriminate|].
  cbv zeta. destruct (0 <? _)%nat; [discriminate|].
  intros [= <- <-] r Hr. cbn [rows] in Hr. unfold rows_1_5 in Hr.
  apply list_elem_of_In, in_map_iff in Hr as (r0 & <- & Hr0).
  apply rows4_amount in Hr0 as [Hgt Hle].
  destruct (amount_in_range _ Hgt Hle) as (a & Ha & Hlo & _).
  exists a. rewrite derive_row_amount, derive_row_category, Ha.
  split; [reflexivity|]. rewrite (cut_amount_bins a Hlo).
  destruct (Qle_bool a 50) eqn:E50;
    [apply Qle_bool_iff in E50|apply Qle_bool_false in E50];
  (destruct (Qle_bool a 200) eqn:E200;
    [apply Qle_bool_iff in E200|apply Qle_bool_false in E200]);
  (destruct (Qle_bool a 500) eqn:E500;
    [apply Qle_bool_iff in E500|apply Qle_bool_false in E500]);
  (destruct (Qle_bool a 1000) eqn:E1000;
    [apply Qle_bool_iff in E1000|apply Qle_bool_false in E1000]);
  repeat split; intros; first [ reflexivity | exfalso; lra ].
Qed.

Lemma Qeq_bool_inject_Z (x y : Z) :
  Qeq_bool (inject_Z x) (inject_Z y) = (x =? y).
Proof.
  unfold Qeq_bool, inject_Z. simpl. by rewrite !Z.mul_1_r.
Qed.

Lemma isin_weekend (d : Z) :
  0 <= d < 7 -> isin weekend (Num (inject_Z d)) = (5 <=? d).
Proof.
  intros H. unfold isin, weekend. simpl.
  change 5%Q with (inject_Z 5). change 6%Q with (inject_Z 6).
  rewrite !Qeq_bool_inject_Z.
  destruct (Z.eqb_spec d 5), (Z.eqb_spec d 6), (Z.leb_spec 5 d);
    simpl; try reflexivity; lia.
Qed.

Lemma isin_late_night (h : Z) :
  0 <= h < 24 -> isin late_night (Num (inject_Z h)) = (h <? 6).
Proof.
  intros H. unfold isin, late_night. simpl.
  change 0%Q with (inject_Z 0). change 1%Q with (inject_Z 1).
  change 2%Q with (inject_Z 2). change 3%Q with (inject_Z 3).
  change 4%Q with (inject_Z 4). change 5%Q with (inject_Z 5).
  rewrite !Qeq_bool_inject_Z.
  destruct (Z.eqb_spec h 0), (Z.eqb_spec h 1), (Z.eqb_spec h 2),
    (Z.eqb_spec h 3), (Z.eqb_spec h 4), (Z.eqb_spec h 5), (Z.ltb_spec h 6);
    simpl; try reflexivity; lia.
Qed.

Lemma dayofweek_of_range t : 0 <= dayofweek_of t < 7.
Proof. unfold dayofweek_of. apply Z.mod_pos_bound. lia. Qed.

Lemma hour_of_range t : 0 <= hour_of t < 24.
Proof. unfold hour_of. apply Z.mod_pos_bound. lia. Qed.

Lemma derive_row_calendar clk r :
  derive_row clk r !!! "transaction_dayofweek"
  = dt dayofweek_of (r !!! "transaction_date")
  /\ derive_row clk r !!! "transaction_hour"
     = dt hour_of (r !!! "transaction_date").
Proof.
  unfold derive_row, score_row, calendar_row. split.
  - other_cells. rewrite set_row_eq. by other_cells.
  - other_cells. rewrite set_row_eq. by other_cells.
Qed.

Ltac cells :=
  repeat match goal with
         | |- context [set_row ?s ?d ?f ?r !!! ?d] =>
             rewrite (set_row_eq s d f r)
         | |- context [set_row ?s ?d ?f ?r !!! ?c] =>
             rewrite (set_row_ne c s d f r) by discriminate
         | |- context [put_row ?d ?v ?r !!! ?d] =>
             rewrite (put_row_eq d v r)
         | |- context [put_row ?d ?v ?r !!! ?c] =>
             rewrite (put_row_ne c d v r) by discriminate
         | |- context [bump_row ?s ?p ?d ?k ?r !!! ?d] =>
             rewrite (bump_row_eq s p d k r)
         | |- context [bump_row ?s ?p ?d ?k ?r !!! ?c] =>
             rewrite (bump_row_ne c s p d k r) by discriminate
         end.

(** The score of a record with a finite amount, a string status and a
    timestamp. *)
Lemma derive_row_score_value clk r a st t :
  r !!! "amount" = Num a -> r !!! "status" = Str st ->
  r !!! "transaction_date" = Timestamp t ->
  exists s,
    derive_row clk r !!! "risk_score" = Num s
    /\ (s == (if Qlt_bool 5000 a then 30 else 0)
             + (if Qlt_bool 10000 a then 40 else 0)
             + (if String.eqb "failed" st then 50 else 0)
             + (if 5 <=? dayofweek_of t then 10 else 0)
             + (if hour_of t <? 6 then 20 else 0))%Q.
Proof.
  intros Ha Hst Ht. unfold derive_row, score_row, calendar_row. cells.
  rewrite Ha, Hst, Ht. cbn [dt gt_num value_eqb].
  rewrite isin_weekend by apply dayofweek_of_range.
  rewrite isin_late_night by apply hour_of_range.
  destruct (Qlt_bool 5000 a), (Qlt_bool 10000 a), (String.eqb "failed" st),
    (5 <=? dayofweek_of t), (hour_of t <? 6);
    cbn [add_num]; eexists; (split; [reflexivity|by vm_compute]).
Qed.

(** X5. The risk score of a record of a successful output is the sum of
    the bonuses that apply to it: 30 for an amount above 5000, 40 more
    for an amount above 10000, 50 for the status failed, 10 for a
    Saturday or Sunday and 20 for an hour before 6. *)
Theorem transform_output_risk_score clk qr df df' qr' :
  transform_transactions to_numeric_obj to_datetime_obj str_obj clk qr df
  = Ok (df', qr') ->
  forall r, r ∈ rows df' ->
    exists a st t s,
      r !!! "amount" = Num a /\ r !!! "status" = Str st
      /\ r !!! "transaction_date" = Timestamp t
      /\ r !!! "risk_score" = Num s
      /\ (s == (if Qlt_bool 5000 a then 30 else 0)
               + (if Qlt_bool 10000 a then 40 else 0)
               + (if String.eqb "failed" st then 50 else 0)
               + (if 5 <=? dayofweek_of t then 10 else 0)
               + (if hour_of t <? 6 then 20 else 0))%Q.
Proof.
  rewrite transform_transactions_nf.
  destruct (first_missing raw_columns (columns df)); [discriminate|].
  cbv zeta. destruct (0 <? _)%nat; [discriminate|].
  intros [= <- <-] r Hr. cbn [rows] in Hr. unfold rows_1_5 in Hr.
  apply list_elem_of_In, in_map_iff in Hr as (r4 & <- & Hr4).
  rewrite rows4_filter in Hr4. apply filter_In in Hr4 as [_ Hr4].
  apply passes_rules_inv in Hr4
    as ((a & Ha & _) & Hst & (t & Ht & _)).
  assert (exists st, r4 !!! "status" = Str st) as (st & Hst').
  { destruct Hst as [H | [H | H]]; rewrite H; eauto. }
  destruct (derive_row_score_value clk r4 a st t Ha Hst' Ht) as (s & Hs & Hsum).
  exists a, st, t, s. rewrite !derive_row_raw by (simpl; tauto).
  by repeat split.
Qed.

Lemma derive_row_date_parts clk r :
  derive_row clk r !!! "transaction_year" = dt year_of (r !!! "transaction_date")
  /\ derive_row clk r !!! "transaction_month"
     = dt month_of (r !!! "transaction_date")
  /\ derive_row clk r !!! "transaction_day"
     = dt day_of (r !!! "transaction_date")
  /\ derive_row clk r !!! "processed_at" = Timestamp (now_processed clk).
Proof.
  unfold derive_row, score_row, calendar_row. repeat split; by cells.
Qed.

(** X6. In a successful output the calendar fields of a record are the
    year, month, day, day of the week (Monday is 0) and hour of its
    transaction date, and every record carries the same [processed_at],
    the one reading of the clock taken by [_add_derived_fields]. *)
Theorem transform_output_calendar clk qr df df' qr' :
  transform_transactions to_numeric_obj to_datetime_obj str_obj clk qr df
  = Ok (df', qr') ->
  forall r, r ∈ rows df' ->
    exists t,
      r !!! "transaction_date" = Timestamp t
      /\ r !!! "transaction_year" = Num (inject_Z (year_of t))
      /\ r !!! "transaction_month" = Num (inject_Z (month_of t))
      /\ r !!! "transaction_day" = Num (inject_Z (day_of t))
      /\ r !!! "transaction_dayofweek" = Num (inject_Z (dayofweek_of t))
      /\ r !!! "transaction_hour" = Num (inject_Z (hour_of t))
      /\ r !!! "processed_at" = Timestamp (now_processed clk).
Proof.
  rewrite transform_transactions_nf.
  destruct (first_missing raw_columns (columns df)); [discriminate|].
  cbv zeta. destruct (0 <? _)%nat; [discriminate|].
  intros [= <- <-] r Hr. cbn [rows] in Hr. unfold rows_1_5 in Hr.
  apply list_elem_of_In, in_map_iff in Hr as (r4 & <- & Hr4).
  destruct (rows4_date _ _ _ Hr4) as (t & Ht). exists t.
  destruct (derive_row_date_parts clk r4) as (Hy & Hm & Hd & Hp).
  destruct (derive_row_calendar clk r4) as (Hw & Hh).
  rewrite derive_row_raw by (simpl; tauto).
  rewrite Hy, Hm, Hd, Hp, Hw, Hh, Ht. by repeat split.
Qed.


(** *** Missing values *)

Lemma rows2_filter rs :
  rows2 rs = List.map fill_row (List.filter critical_present rs).
Proof.
  unfold rows2, keep. rewrite !filter_filter_and. f_equal.
  apply List.filter_ext. intros r. unfold critical_present.
  by rewrite !andb_assoc.
Qed.

Lemma fillna_not_null d v : d <> Null -> fillna d v <> Null.
Proof. unfold fillna. by destruct v. Qed.

(** X12. When [_handle_missing_values] returns, the columns are those of
    the input and the rows are, in their order, the records in which
    none of [transaction_id], [customer_id] and [amount] is null, each
    with a null category replaced by ["unknown"] and a null merchant by
    ["MERCH0000"] and with every other cell as it was; none of these five
    fields is null in the result. *)
Theorem handle_missing_values_exact df df' :
  _handle_missing_values df = Ok df' ->
  columns df' = columns df
  /\ rows df' = List.map fill_row (List.filter critical_present (rows df))
  /\ (forall r,
        fill_row r !!! "category" = fillna (Str "unknown") (r !!! "category")
        /\ fill_row r !!! "merchant_id"
           = fillna (Str "MERCH0000") (r !!! "merchant_id")
        /\ forall c, c <> "category" -> c <> "merchant_id" ->
                     fill_row r !!! c = r !!! c)
  /\ (forall r' c,
        r' ∈ rows df' ->
        c ∈ ["transaction_id"; "customer_id"; "amount"; "category";
             "merchant_id"] ->
        r' !!! c <> Null).
Proof.
  rewrite handle_missing_values_nf.
  destruct (first_missing _ (columns df)); [discriminate|].
  intros [= <-]. cbn [columns rows]. rewrite rows2_filter.
  split; [reflexivity|]. split; [reflexivity|].
  assert (Hfill : forall r,
            fill_row r !!! "category"
            = fillna (Str "unknown") (r !!! "category")
            /\ fill_row r !!! "merchant_id"
               = fillna (Str "MERCH0000") (r !!! "merchant_id")
            /\ forall c, c <> "category" -> c <> "merchant_id" ->
                         fill_row r !!! c = r !!! c).
  { intros r. unfold fill_row. split; [by cells|]. split; [by cells|].
    intros c H1 H2. by rewrite !set_row_ne. }
  split; [exact Hfill|].
  intros r' c Hr' Hc. apply list_elem_of_In, in_map_iff in Hr' as (r & <- & Hr).
  apply filter_In in Hr as [_ Hr]. unfold critical_present in Hr.
  apply andb_true_iff in Hr as [Hr Ham].
  apply andb_true_iff in Hr as [Hid Hcu].
  destruct (Hfill r) as (Hcat & Hmer & Hrest).
  repeat (apply elem_of_cons in Hc as [->|Hc]);
    [rewrite Hrest by discriminate; by destruct (r !!! "transaction_id")
    |rewrite Hrest by discriminate; by destruct (r !!! "customer_id")
    |rewrite Hrest by discriminate; by destruct (r !!! "amount")
    |rewrite Hcat; by apply fillna_not_null
    |rewrite Hmer; by apply fillna_not_null
    |by apply elem_of_nil in Hc].
Qed.

(** *** Standardized strings *)

Lemma is_space_upper a : is_space (upper_ascii a) = is_space a.
Proof. destruct a as [[] [] [] [] [] [] [] []]; reflexivity. Qed.

Lemma is_space_lower a : is_space (lower_ascii a) = is_space a.
Proof. destruct a as [[] [] [] [] [] [] [] []]; reflexivity. Qed.

Lemma upper_ascii_idem a : upper_ascii (upper_ascii a) = upper_ascii a.
Proof. destruct a as [[] [] [] [] [] [] [] []]; reflexivity. Qed.

Lemma lower_ascii_idem a : lower_ascii (lower_ascii a) = lower_ascii a.
Proof. destruct a as [[] [] [] [] [] [] [] []]; reflexivity. Qed.

Lemma map_string_idem f s :
  (forall a, f (f a) = f a) -> map_string f (map_string f s) = map_string f s.
Proof. intros H. induction s as [|a s IH]; simpl; [reflexivity|]. by rewrite H, IH. Qed.

Lemma lstrip_map_string f s :
  (forall a, is_space (f a) = is_space a) ->
  lstrip (map_string f s) = map_string f (lstrip s).
Proof.
  intros H. induction s as [|a s IH]; simpl; [reflexivity|].
  rewrite H. by destruct (is_space a).
Qed.

Lemma rstrip_map_string f s :
  (forall a, is_space (f a) = is_space a) ->
  rstrip (map_string f s) = map_string f (rstrip s).
Proof.
  intros H. induction s as [|a s IH]; simpl; [reflexivity|].
  rewrite IH, H. destruct (rstrip s); simpl; [|reflexivity].
  by destruct (is_space a).
Qed.

Lemma rstrip_idem s : rstrip (rstrip s) = rstrip s.
Proof.
  induction s as [|a s IH]; simpl; [reflexivity|].
  destruct (rstrip s) as [|b u] eqn:E.
  - destruct (is_space a) eqn:Ea; simpl; [reflexivity|]. by rewrite Ea.
  - change (rstrip (String a (String b u)))
      with (match rstrip (String b u) with
            | EmptyString =>
                if is_space a then EmptyString else String a EmptyString
            | t => String a t
            end).
    by rewrite IH.
Qed.

Lemma lstrip_rstrip_lstrip s : lstrip (rstrip (lstrip s)) = rstrip (lstrip s).
Proof.
  induction s as [|a s IH]; simpl; [reflexivity|].
  destruct (is_space a) eqn:Ea; [exact IH|].
  simpl. destruct (rstrip s); simpl; rewrite ?Ea; simpl; by rewrite ?Ea.
Qed.

Lemma strip_idem s : strip (strip s) = strip s.
Proof. unfold strip. by rewrite lstrip_rstrip_lstrip, rstrip_idem. Qed.

Lemma strip_map_string f s :
  (forall a, is_space (f a) = is_space a) ->
  strip (map_string f s) = map_string f (strip s).
Proof.
  intros H. unfold strip. by rewrite lstrip_map_string, rstrip_map_string.
Qed.

Lemma standardized_upper s : upper (strip (upper (strip s))) = upper (strip s).
Proof.
  unfold upper. rewrite (strip_map_string _ _ is_space_upper), strip_idem.
  apply map_string_idem, upper_ascii_idem.
Qed.

Lemma standardized_lower s : lower (strip (lower (strip s))) = lower (strip s).
Proof.
  unfold lower. rewrite (strip_map_string _ _ is_space_lower), strip_idem.
  apply map_string_idem, lower_ascii_idem.
Qed.

Lemma standardize_row_cells r :
  (forall c, In c ["transaction_id"; "customer_id"; "merchant_id"] ->
     standardize_row str_obj r !!! c = standardize str_obj upper (r !!! c))
  /\ (forall c, In c ["status"; "category"; "payment_method"] ->
        standardize_row str_obj r !!! c = standardize str_obj lower (r !!! c)).
Proof.
  unfold standardize_row. cbv zeta. split; intros c Hc; simpl in Hc;
    repeat (destruct Hc as [<-|Hc]; [by cells|]); destruct Hc.
Qed.

(** X13. In a successful output the identifiers [transaction_id],
    [customer_id] and [merchant_id] are strings that stripping and
    upper-casing leave as they are, and [status], [category] and
    [payment_method] are strings that stripping and lower-casing leave
    as they are. *)
Theorem transform_output_standardized clk qr df df' qr' :
  transform_transactions to_numeric_obj to_datetime_obj str_obj clk qr df
  = Ok (df', qr') ->
  forall r, r ∈ rows df' ->
    (forall c, c ∈ ["transaction_id"; "customer_id"; "merchant_id"] ->
       exists s, r !!! c = Str s /\ upper (strip s) = s)
    /\ (forall c, c ∈ ["status"; "category"; "payment_method"] ->
          exists s, r !!! c = Str s /\ lower (strip s) = s).
Proof.
  rewrite transform_transactions_nf.
  destruct (first_missing raw_columns (columns df)); [discriminate|].
  cbv zeta. destruct (0 <? _)%nat; [discriminate|].
  intros [= <- <-] r Hr. cbn [rows] in Hr. unfold rows_1_5 in Hr.
  apply list_elem_of_In, in_map_iff in Hr as (r4 & <- & Hr4).
  apply rows4_In in Hr4. unfold rows3 in Hr4.
  apply in_map_iff in Hr4 as (r3 & <- & _).
  destruct (standardize_row_cells r3) as [Hup Hlow].
  split; intros c Hc; apply list_elem_of_In in Hc.
  - rewrite derive_row_raw by (simpl in Hc; simpl; tauto).
    rewrite (Hup c Hc). unfold standardize. eexists. split; [reflexivity|].
    apply standardized_upper.
  - rewrite derive_row_raw by (simpl in Hc; simpl; tauto).
    rewrite (Hlow c Hc). unfold standardize. eexists. split; [reflexivity|].
    apply standardized_lower.
Qed.

End Pipeline.

(** ** The examples *)

Example strip_upper_example : upper (strip "  txn001 ") = "TXN001".
Proof. reflexivity. Qed.

Example civil_from_days_example : civil_from_days 19737 = (2024, 1, 15).
Proof. reflexivity. Qed.

Example sunday_at_two :
  dayofweek_of (at_hour 19736 2) = 6 /\ hour_of (at_hour 19736 2) = 2.
Proof. split; reflexivity. Qed.

Lemma transform_no_merchant_batch :
  transform_transactions coerce_null coerce_null str_nan example_clock ∅
    no_merchant_batch
  = Ok (example_output no_merchant_batch, example_report no_merchant_batch).
Proof.
  rewrite transform_transactions_nf.
  replace (first_missing raw_columns (columns no_merchant_batch))
    with (@None string) by (by vm_compute).
  cbv zeta.
  match goal with
  | |- context [if ?c then _ else _] => replace c with false by (by vm_compute)
  end.
  reflexivity.
Qed.

Lemma transform_output_ranges_witness :
  transform_transactions coerce_null coerce_null str_nan example_clock ∅
    no_merchant_batch
  = Ok (example_output no_merchant_batch, example_report no_merchant_batch)
  /\ (forall r, r ∈ rows (example_output no_merchant_batch) ->
        exists a s,
          r !!! "amount" = Num a /\ (0 < a)%Q /\ (a <= 1000000)%Q
          /\ r !!! "risk_score" = Num s /\ (0 <= s)%Q).
Proof.
  split; [exact transform_no_merchant_batch|].
  exact (transform_output_ranges coerce_null coerce_null str_nan
           example_clock ∅ no_merchant_batch _ _ transform_no_merchant_batch).
Defined.

Lemma transform_report_consistent_witness :
  transform_transactions coerce_null coerce_null str_nan example_clock ∅
    no_merchant_batch
  = Ok (example_output no_merchant_batch, example_report no_merchant_batch)
  /\ (exists e,
        example_report no_merchant_batch !! "transactions" = Some e
        /\ initial_records e = Z.of_nat (len no_merchant_batch)
        /\ final_records e = Z.of_nat (len (example_output no_merchant_batch))
        /\ initial_records e - final_records e = records_removed e
        /\ 0 <= records_removed e
        /\ (0 < initial_records e ->
            removal_percentage e
            = (inject_Z (records_removed e) / inject_Z (initial_records e)
               * 100)%Q)
        /\ (initial_records e = 0 -> removal_percentage e = 0%Q)).
Proof.
  split; [exact transform_no_merchant_batch|].
  exact (transform_report_consistent coerce_null coerce_null str_nan
           example_clock ∅ no_merchant_batch _ _ transform_no_merchant_batch).
Defined.

Lemma null_merchant_filled_with_MERCH0000_witness :
  transform_transactions coerce_null coerce_null str_nan example_clock ∅
    no_merchant_batch
  = Ok (example_output no_merchant_batch, example_report no_merchant_batch)
  /\ (forall r', r' ∈ rows (example_output no_merchant_batch) ->
        exists r,
          r ∈ rows no_merchant_batch
          /\ r' !!! "transaction_id"
             = standardize str_nan upper (r !!! "transaction_id")
          /\ (r !!! "merchant_id" = Null ->
              r' !!! "merchant_id" = Str "MERCH0000"
              /\ r' !!! "merchant_id" <> Str "unknown"
              /\ r' !!! "merchant_id" <> Str "UNKNOWN")).
Proof.
  split; [exact transform_no_merchant_batch|].
  exact (null_merchant_filled_with_MERCH0000 coerce_null coerce_null str_nan
           example_clock ∅ no_merchant_batch _ _ transform_no_merchant_batch).
Defined.

Example no_merchant_batch_output :
  List.map (fun r : row => (r !!! "transaction_id", r !!! "merchant_id"))
    (rows (example_output no_merchant_batch))
  = [(Str "TXN00000003", Str "MERCH0000")].
Proof. by vm_compute. Qed.



Example no_amount_batch_raises :
  transform_transactions coerce_null coerce_null str_nan example_clock ∅
    no_amount_batch
  = Raise (KeyError "amount").
Proof. by vm_compute. Qed.

Lemma remove_duplicates_idempotent_witness :
  has_column "transaction_id" same_id_batch = true
  /\ exists df1, _remove_duplicates same_id_batch = Ok df1
                 /\ _remove_duplicates df1 = Ok df1.
Proof.
  split; [reflexivity|].
  exact (proj2 (remove_duplicates_idempotent same_id_batch) eq_refl).
Defined.

Lemma validate_against_customers_spec_witness :
  has_column "customer_id" ten_transactions = true
  /\ has_column "customer_id" three_customers = true
  /\ exists kept,
       validate_against_customers ten_transactions three_customers
       = Ok (kept, three_customers)
       /\ len ten_transactions = 10%nat
       /\ len kept = 7%nat.
Proof.
  split; [reflexivity|]. split; [reflexivity|].
  destruct (validate_against_customers_spec ten_transactions three_customers
              eq_refl eq_refl) as (kept & Hcall & _ & Hrows & _ & _).
  exists kept. split; [exact Hcall|]. split; [reflexivity|].
  unfold len. rewrite Hrows. reflexivity.
Defined.

Lemma run_quality_checks_reports_all_witness :
  len fifty_rows = 50%nat
  /\ min_row_count default_thresholds = 100%Q
  /\ fst (run_quality_checks default_thresholds [] fifty_rows "transactions")
     = false
  /\ snd (run_quality_checks default_thresholds [] fifty_rows "transactions")
     = [RowCountBelowMinimum "transactions" 50 100].
Proof.
  split; [reflexivity|]. split; [reflexivity|].
  destruct (run_quality_checks_reports_all default_thresholds [] fifty_rows
              "transactions") as (_ & _ & _ & _ & _ & H).
  destruct (H eq_refl eq_refl) as (Hfst & _ & _).
  split; [exact Hfst|]. by vm_compute.
Defined.

Lemma run_quality_checks_empty_batch_witness :
  rows empty_batch = []
  /\ (0 < min_row_count default_thresholds)%Q
  /\ run_quality_checks default_thresholds [] empty_batch "transactions"
     = (false, [RowCountBelowMinimum "transactions" 0 100]).
Proof.
  split; [reflexivity|]. split; [reflexivity|].
  exact (proj2 (proj2 (proj2 (proj2
           (run_quality_checks_empty_batch default_thresholds []
              empty_batch "transactions" eq_refl eq_refl))))).
Defined.

(** ** More about the deduplication and the duplicate check *)

Lemma value_eqb_sym (v w : value) : value_eqb v w = value_eqb w v.
Proof.
  destruct v, w; simpl; try reflexivity.
  - apply String.eqb_sym.
  - apply Qeq_bool_comm.
  - by destruct negative, negative0.
  - apply Z.eqb_sym.
Qed.

Lemma value_eqb_trans (u v w : value) :
  value_eqb u v = true -> value_eqb v w = true -> value_eqb u w = true.
Proof.
  destruct u, v, w; simpl; try discriminate; try reflexivity.
  - rewrite !String.eqb_eq. congruence.
  - apply Qeq_bool_trans.
  - destruct negative, negative0, negative1; simpl; congruence.
  - rewrite !Z.eqb_eq. congruence.
Qed.

Lemma isin_false (vs : list value) (v : value) :
  isin vs v = false <-> forall w, In w vs -> value_eqb v w = false.
Proof.
  unfold isin. induction vs as [|x vs IH]; simpl.
  - split; [tauto|reflexivity].
  - rewrite orb_false_iff, IH. split.
    + intros [Hx H] w [<-|Hw]; auto.
    + intros H. split; [apply H; by left|]. intros w Hw. apply H. by right.
Qed.

Section DedupMore.

Variable key : row -> value.

Lemma drop_duplicates_unique (rs : list row) :
  forall seen,
    is_unique (List.map key (drop_duplicates key seen rs)) = true.
Proof.
  induction rs as [|r rs IH]; intros seen; simpl; [reflexivity|].
  destruct (isin seen (key r)) eqn:E; [apply IH|].
  simpl. rewrite IH, andb_true_r. apply negb_true_iff, isin_false.
  intros w Hw. apply in_map_iff in Hw as (r' & <- & Hr').
  apply list_elem_of_In, drop_duplicates_fresh in Hr'.
  simpl in Hr'. apply orb_false_iff in Hr' as [Hr' _].
  by rewrite value_eqb_sym.
Qed.

Lemma drop_duplicates_sublist (rs : list row) :
  forall seen, drop_duplicates key seen rs `sublist_of` rs.
Proof.
  induction rs as [|r rs IH]; intros seen; simpl; [constructor|].
  destruct (isin seen (key r)).
  - apply sublist_cons, IH.
  - apply sublist_skip, IH.
Qed.

Lemma drop_duplicates_covers (rs : list row) :
  forall seen r,
    In r rs ->
    isin seen (key r) = true
    \/ exists r', In r' (drop_duplicates key seen rs)
                  /\ value_eqb (key r) (key r') = true.
Proof.
  induction rs as [|r0 rs IH]; intros seen r; simpl; [tauto|].
  intros [->|Hr].
  - destruct (isin seen (key r)) eqn:E; [by left|].
    right. exists r. split; [by left|apply value_eqb_refl].
  - destruct (isin seen (key r0)) eqn:E; [by apply IH|].
    destruct (IH (key r0 :: seen) r Hr) as [H|(r' & Hr' & Heq)].
    + simpl in H. apply orb_true_iff in H as [H|H]; [|by left].
      right. exists r0. split; [by left|exact H].
    + right. exists r'. split; [by right|exact Heq].
Qed.

Lemma drop_duplicates_first (pre post : list row) (r : row) :
  forall seen,
    isin seen (key r) = false ->
    (forall p, In p pre -> value_eqb (key r) (key p) = false) ->
    In r (drop_duplicates key seen (pre ++ r :: post)).
Proof.
  induction pre as [|p pre IH]; intros seen Hseen Hpre; simpl.
  - rewrite Hseen. by left.
  - destruct (isin seen (key p)).
    + apply IH; [exact Hseen|]. intros q Hq. apply Hpre. by right.
    + right. apply IH.
      * simpl. rewrite Hseen, orb_false_r. apply Hpre. by left.
      * intros q Hq. apply Hpre. by right.
Qed.

(** [duplicated] and [drop_duplicates] only ask whether a key has been
    seen, so two memories that answer alike give the same result. *)
Lemma duplicated_ext (vs : list value) :
  forall seen1 seen2,
    (forall x, isin seen1 x = isin seen2 x) ->
    duplicated seen1 vs = duplicated seen2 vs.
Proof.
  induction vs as [|v vs IH]; intros seen1 seen2 H; simpl; [reflexivity|].
  rewrite H. f_equal. apply IH. intros x. simpl. by rewrite H.
Qed.

Lemma isin_cons_seen (seen : list value) (v x : value) :
  isin seen v = true -> isin (v :: seen) x = isin seen x.
Proof.
  intros Hv. simpl. destruct (value_eqb x v) eqn:E; [|reflexivity].
  simpl. symmetry. unfold isin in *.
  apply existsb_exists in Hv as (s & Hs & Hvs).
  apply existsb_exists. exists s. split; [exact Hs|].
  by apply (value_eqb_trans x v s).
Qed.

Lemma duplicated_count (rs : list row) :
  forall seen,
    (count_true (duplicated seen (List.map key rs))
     + length (drop_duplicates key seen rs) = length rs)%nat.
Proof.
  unfold count_true.
  induction rs as [|r rs IH]; intros seen; simpl; [reflexivity|].
  destruct (isin seen (key r)) eqn:E; simpl.
  - rewrite (duplicated_ext _ (key r :: seen) seen)
      by (intros x; by apply isin_cons_seen).
    specialize (IH seen). lia.
  - specialize (IH (key r :: seen)). lia.
Qed.

End DedupMore.

(** X8. When [_remove_duplicates] returns, the result has the columns of
    the input, its rows are rows of the input in their order, no
    [transaction_id] occurs twice in it, every id of the input is still
    there, and the record kept for an id is the first one that had it. *)
Theorem remove_duplicates_keeps_first (df df' : DataFrame) :
  _remove_duplicates df = Ok df' ->
  columns df' = columns df
  /\ rows df' `sublist_of` rows df
  /\ is_unique (column_values "transaction_id" df') = true
  /\ (forall r, r ∈ rows df ->
        exists r', r' ∈ rows df'
                   /\ value_eqb (r !!! "transaction_id")
                        (r' !!! "transaction_id") = true)
  /\ (forall pre r post,
        rows df = pre ++ r :: post ->
        (forall p, p ∈ pre ->
                   value_eqb (r !!! "transaction_id")
                     (p !!! "transaction_id") = false) ->
        r ∈ rows df').
Proof.
  unfold _remove_duplicates. destruct (has_column _ _); [|discriminate].
  intros [= <-]. cbn [columns rows]. unfold column_values. cbn [rows].
  split; [reflexivity|]. split; [apply drop_duplicates_sublist|].
  split; [apply (drop_duplicates_unique (fun r => r !!! "transaction_id"))|].
  split.
  - intros r Hr. apply list_elem_of_In in Hr.
    destruct (drop_duplicates_covers (fun r => r !!! "transaction_id")
                (rows df) [] r Hr) as [H|(r' & Hr' & Heq)];
      [discriminate|].
    exists r'. split; [by apply list_elem_of_In|exact Heq].
  - intros pre r post -> Hpre. apply list_elem_of_In.
    apply drop_duplicates_first; [reflexivity|].
    intros p Hp. apply Hpre. by apply list_elem_of_In.
Qed.

Lemma remove_duplicates_keeps_first_witness :
  _remove_duplicates repeated_id_batch
  = Ok (mkDataFrame raw_schema [uppercase_id_record; no_merchant_record])
  /\ is_unique
       (column_values "transaction_id"
          (mkDataFrame raw_schema [uppercase_id_record; no_merchant_record]))
     = true.
Proof.
  split; [reflexivity|].
  exact (proj1 (proj2 (proj2
           (remove_duplicates_keeps_first repeated_id_batch _ eq_refl)))).
Defined.

(** ** The thresholds of the quality gate *)




(** X10. The batch that [_remove_duplicates] returns passes the duplicate
    check of the gate for every threshold that is not negative, and the
    check records no issue. *)
Theorem remove_duplicates_passes_check (thr : thresholds)
    (issues : list issue) (df df1 : DataFrame) (name : string) :
  (0 <= max_duplicate_percentage thr)%Q ->
  _remove_duplicates df = Ok df1 ->
  _check_duplicates thr issues df1 name = (true, issues).
Proof.
  intros Hthr Hdd.
  destruct (remove_duplicates_idempotent df) as [_ Hidem].
  unfold _remove_duplicates in Hdd, Hidem.
  destruct (has_column "transaction_id" df) eqn:Ecol; [|discriminate].
  destruct (Hidem eq_refl) as (df1' & H1 & H2).
  assert (df1' = df1) as -> by congruence. clear H1 Hidem.
  destruct (has_column "transaction_id" df1) eqn:Ecol1; [|discriminate].
  injection H2 as H2.
  unfold _check_duplicates. rewrite Ecol1.
  pose proof (duplicated_count (fun r : row => r !!! "transaction_id")
                (rows df1) []) as Hcount.
  apply (f_equal rows) in H2. cbn [rows] in H2. rewrite H2 in Hcount.
  assert (Hzero : count_true
                    (duplicated []
                       (List.map (fun r : row => r !!! "transaction_id")
                          (rows df1))) = 0%nat) by lia.
  rewrite Hzero. unfold np_truediv, len. simpl Z.of_nat at 1.
  destruct (Z.of_nat (length (rows df1)) =? 0); [reflexivity|].
  simpl. destruct (Qlt_bool _ _) eqn:E; [|reflexivity].
  apply Qlt_bool_iff in E. exfalso.
  assert (Hz : (inject_Z 0 / inject_Z (Z.of_nat (length (rows df1))) * 100
                == 0)%Q).
  { unfold Qdiv. change (inject_Z 0) with 0%Q. by rewrite !Qmult_0_l. }
  rewrite Hz in E. lra.
Qed.

Lemma remove_duplicates_passes_check_witness :
  (0 <= max_duplicate_percentage default_thresholds)%Q
  /\ _remove_duplicates repeated_id_batch
     = Ok (mkDataFrame raw_schema [uppercase_id_record; no_merchant_record])
  /\ _check_duplicates default_thresholds []
       (mkDataFrame raw_schema [uppercase_id_record; no_merchant_record])
       "transactions" = (true, []).
Proof.
  split; [discriminate|]. split; [reflexivity|].
  apply (remove_duplicates_passes_check default_thresholds []
           repeated_id_batch); [discriminate|reflexivity].
Defined.



(** ** Unique identifiers in the output *)

Lemma is_unique_map_filter (k : row -> value) (p : row -> bool)
    (l : list row) :
  is_unique (List.map k l) = true ->
  is_unique (List.map k (List.filter p l)) = true.
Proof.
  induction l as [|x l IH]; simpl; [reflexivity|].
  intros H. apply andb_true_iff in H as [Hx Hl].
  destruct (p x); simpl; [|by apply IH].
  rewrite IH by exact Hl. rewrite andb_true_r.
  apply negb_true_iff in Hx. apply negb_true_iff, isin_false.
  intros w Hw. apply (proj1 (isin_false _ _) Hx).
  apply in_map_iff in Hw as (y & <- & Hy). apply in_map.
  by apply filter_In in Hy as [Hy _].
Qed.

Lemma is_unique_map_change (k k' : row -> value) (l : list row) :
  is_unique (List.map k l) = true ->
  (forall x y, In x l -> In y l ->
     value_eqb (k' x) (k' y) = true -> value_eqb (k x) (k y) = true) ->
  is_unique (List.map k' l) = true.
Proof.
  induction l as [|x l IH]; simpl; [reflexivity|].
  intros H Hinj. apply andb_true_iff in H as [Hx Hl].
  rewrite IH; [|exact Hl|intros; apply Hinj; auto].
  rewrite andb_true_r. apply negb_true_iff in Hx.
  apply negb_true_iff, isin_false. intros w Hw.
  apply in_map_iff in Hw as (y & <- & Hy).
  destruct (value_eqb (k' x) (k' y)) eqn:E; [|reflexivity].
  apply Hinj in E; [|by left|by right].
  rewrite (proj1 (isin_false _ _) Hx (k y)) in E; [discriminate|].
  by apply in_map.
Qed.

Lemma map_key_through {A : Type} (k1 k2 : row -> A) (f : row -> row)
    (l : list row) :
  (forall r, k2 (f r) = k1 r) ->
  List.map k2 (List.map f l) = List.map k1 l.
Proof. intros H. rewrite map_map. apply map_ext. exact H. Qed.

Section Uniqueness.

Variable to_numeric_obj : value -> value.
Variable to_datetime_obj : value -> value.
Variable str_obj : value -> string.

Let tid (r : row) : value := r !!! "transaction_id".
Let std_tid (r : row) : value := standardize str_obj upper (tid r).

Lemma rows_1_5_unique clk rs :
  (forall r1 r2, In r1 rs -> In r2 rs ->
     std_tid r1 = std_tid r2 -> value_eqb (tid r1) (tid r2) = true) ->
  is_unique
    (List.map tid
       (rows_1_5 to_numeric_obj to_datetime_obj str_obj clk rs)) = true.
Proof.
  intros Hinj. unfold rows_1_5.
  rewrite (map_key_through tid tid (derive_row clk))
    by (intros r; apply derive_row_raw; simpl; tauto).
  rewrite rows4_filter. apply is_unique_map_filter. unfold rows3.
  rewrite (map_key_through std_tid tid (standardize_row str_obj))
    by (intros r; apply standardize_row_id).
  unfold keep. do 2 apply is_unique_map_filter.
  rewrite (map_key_through std_tid std_tid)
    by (intros r; unfold std_tid, tid, set_row;
        by rewrite lookup_total_insert_ne).
  assert (Hdates : forall l,
            List.map std_tid (coerce_dates to_datetime_obj l)
            = List.map std_tid l).
  { intros l. unfold coerce_dates.
    destruct (is_datetime64 _ _); [reflexivity|].
    apply map_key_through. intros r. unfold std_tid, tid, set_row.
    by rewrite lookup_total_insert_ne. }
  rewrite Hdates, rows2_filter.
  rewrite (map_key_through std_tid std_tid fill_row)
    by (intros r; unfold std_tid, tid; by rewrite fill_row_id).
  apply is_unique_map_filter.
  apply (is_unique_map_change tid);
    [apply (drop_duplicates_unique tid)|].
  intros x y Hx Hy Heq.
  apply (drop_duplicates_In to_numeric_obj to_datetime_obj str_obj) in Hx, Hy.
  apply Hinj; [exact Hx|exact Hy|].
  unfold std_tid, standardize in *. simpl in Heq.
  apply String.eqb_eq in Heq. by rewrite Heq.
Qed.

(** X14. When no two records of the input whose raw ids differ get the
    same id by stripping and upper-casing, the ids of a successful output
    are pairwise distinct. *)
Theorem transform_output_unique_ids clk qr df df' qr' :
  transform_transactions to_numeric_obj to_datetime_obj str_obj clk qr df
  = Ok (df', qr') ->
  (forall r1 r2, r1 ∈ rows df -> r2 ∈ rows df ->
     standardize str_obj upper (r1 !!! "transaction_id")
     = standardize str_obj upper (r2 !!! "transaction_id") ->
     value_eqb (r1 !!! "transaction_id") (r2 !!! "transaction_id") = true) ->
  is_unique (column_values "transaction_id" df') = true.
Proof.
  rewrite transform_transactions_nf.
  destruct (first_missing raw_columns (columns df)); [discriminate|].
  cbv zeta. destruct (0 <? _)%nat; [discriminate|].
  intros [= <- <-] Hinj. unfold column_values. cbn [rows].
  apply rows_1_5_unique. intros r1 r2 H1 H2.
  apply Hinj; by apply list_elem_of_In.
Qed.

End Uniqueness.

Lemma filter_sublist {A : Type} (p : A -> bool) (l : list A) :
  List.filter p l `sublist_of` l.
Proof.
  induction l as [|x l IH]; simpl; [constructor|].
  destruct (p x); [by apply sublist_skip|by apply sublist_cons].
Qed.

(** X15. As [ETLPipeline.run] chains them: when [transform_transactions]
    and then [validate_against_customers] return, the customers are as
    they were, the validated batch consists of records of the transformed
    one in their order, each with a [customer_id] that one of the
    customers has, it is not longer than the transformed batch, which is
    not longer than the raw one, and it has no repeated id if the
    transformed batch had none. *)
Theorem transform_then_validate (to_numeric_obj to_datetime_obj : value -> value)
    (str_obj : value -> string) (clk : clock)
    (qr qr1 : gmap string report_entry)
    (df customers df1 df2 customers2 : DataFrame) :
  transform_transactions to_numeric_obj to_datetime_obj str_obj clk qr df
  = Ok (df1, qr1) ->
  validate_against_customers df1 customers = Ok (df2, customers2) ->
  customers2 = customers
  /\ columns df2 = columns df1
  /\ rows df2 `sublist_of` rows df1
  /\ (len df2 <= len df1)%nat /\ (len df1 <= len df)%nat
  /\ (forall r, r ∈ rows df2 ->
        exists c, c ∈ rows customers
                  /\ value_eqb (r !!! "customer_id") (c !!! "customer_id")
                     = true)
  /\ (is_unique (column_values "transaction_id" df1) = true ->
      is_unique (column_values "transaction_id" df2) = true).
Proof.
  intros Ht Hv.
  assert (Hlen : (len df1 <= len df)%nat).
  { revert Ht. rewrite transform_transactions_nf.
    destruct (first_missing raw_columns (columns df)); [discriminate|].
    cbv zeta. destruct (0 <? _)%nat; [discriminate|].
    intros [= <- _]. unfold len. cbn [rows]. apply rows_1_5_length. }
  revert Hv. unfold validate_against_customers, where_.
  destruct (has_column "customer_id" customers); [|discriminate].
  destruct (has_column "customer_id" df1); [|discriminate].
  simpl. intros [= <- <-]. cbn [columns rows]. unfold keep.
  split; [reflexivity|]. split; [reflexivity|].
  split; [apply filter_sublist|].
  split; [unfold len; cbn [rows]; apply filter_length_le|].
  split; [exact Hlen|]. split.
  - intros r Hr. apply list_elem_of_In, filter_In in Hr as [_ Hr].
    unfold isin in Hr. apply existsb_exists in Hr as (v & Hv & Heq).
    apply in_map_iff in Hv as (c & <- & Hc).
    exists c. split; [by apply list_elem_of_In|exact Heq].
  - unfold column_values. cbn [rows]. apply is_unique_map_filter.
Qed.

(** ** The properties on the example batches *)

Lemma transform_example_ok (df : DataFrame) :
  first_missing raw_columns (columns df) = None ->
  (0 <? list_sum (List.map (fun f => null_count f (example_output df))
                    required_fields))%nat = false ->
  transform_transactions coerce_null coerce_null str_nan example_clock ∅ df
  = Ok (example_output df, example_report df).
Proof.
  intros Hcols Hnulls. rewrite transform_transactions_nf, Hcols. cbv zeta.
  fold (example_output df). by rewrite Hnulls.
Qed.

Lemma transform_two_records_batch :
  transform_transactions coerce_null coerce_null str_nan example_clock ∅
    two_records_batch
  = Ok (example_output two_records_batch, example_report two_records_batch).
Proof. apply transform_example_ok; by vm_compute. Qed.

Lemma apply_business_rules_exact_witness :
  _apply_business_rules example_clock two_records_batch = Ok two_records_batch
  /\ rows two_records_batch
     = List.filter (passes_rules example_clock) (rows two_records_batch).
Proof.
  split; [by vm_compute|].
  exact (proj1 (proj2 (apply_business_rules_exact coerce_null coerce_null
                         str_nan example_clock two_records_batch
                         two_records_batch ltac:(by vm_compute)))).
Defined.

Lemma transform_output_status_and_date_witness :
  transform_transactions coerce_null coerce_null str_nan example_clock ∅
    two_records_batch
  = Ok (example_output two_records_batch, example_report two_records_batch)
  /\ (forall r, r ∈ rows (example_output two_records_batch) ->
        (r !!! "status" = Str "completed" \/ r !!! "status" = Str "pending"
         \/ r !!! "status" = Str "failed")
        /\ (exists t, r !!! "transaction_date" = Timestamp t
                      /\ now_rule5 example_clock - days_730 <= t
                         <= now_rule4 example_clock)).
Proof.
  split; [exact transform_two_records_batch|].
  exact (transform_output_status_and_date coerce_null coerce_null str_nan
           example_clock ∅ two_records_batch _ _ transform_two_records_batch).
Defined.

Lemma transform_output_risk_level_witness :
  transform_transactions coerce_null coerce_null str_nan example_clock ∅
    two_records_batch
  = Ok (example_output two_records_batch, example_report two_records_batch)
  /\ (forall r, r ∈ rows (example_output two_records_batch) ->
        forall f, f ∈ required_fields -> r !!! f <> Null).
Proof.
  split; [exact transform_two_records_batch|].
  intros r Hr.
  exact (proj1 (transform_output_risk_level coerce_null coerce_null str_nan
                  example_clock ∅ two_records_batch _ _
                  transform_two_records_batch r Hr)).
Defined.

Lemma transform_output_amount_category_witness :
  transform_transactions coerce_null coerce_null str_nan example_clock ∅
    two_records_batch
  = Ok (example_output two_records_batch, example_report two_records_batch)
  /\ (forall r, r ∈ rows (example_output two_records_batch) ->
        exists a,
          r !!! "amount" = Num a
          /\ ((a <= 50)%Q -> r !!! "amount_category" = Str "small")
          /\ ((50 < a)%Q -> (a <= 200)%Q ->
              r !!! "amount_category" = Str "medium")
          /\ ((200 < a)%Q -> (a <= 500)%Q ->
              r !!! "amount_category" = Str "large")
          /\ ((500 < a)%Q -> (a <= 1000)%Q ->
              r !!! "amount_category" = Str "very_large")
          /\ ((1000 < a)%Q -> r !!! "amount_category" = Str "exceptional")).
Proof.
  split; [exact transform_two_records_batch|].
  exact (transform_output_amount_category coerce_null coerce_null str_nan
           example_clock ∅ two_records_batch _ _ transform_two_records_batch).
Defined.

Example two_records_batch_categories :
  List.map (fun r : row => (r !!! "amount", r !!! "amount_category"))
    (rows (example_output two_records_batch))
  = [(Num 250, Str "large"); (Num 75.25, Str "medium")].
Proof. by vm_compute. Qed.

Lemma transform_output_risk_score_witness :
  transform_transactions coerce_null coerce_null str_nan example_clock ∅
    two_records_batch
  = Ok (example_output two_records_batch, example_report two_records_batch)
  /\ (forall r, r ∈ rows (example_output two_records_batch) ->
        exists a st t s,
          r !!! "amount" = Num a /\ r !!! "status" = Str st
          /\ r !!! "transaction_date" = Timestamp t
          /\ r !!! "risk_score" = Num s
          /\ (s == (if Qlt_bool 5000 a then 30 else 0)
                   + (if Qlt_bool 10000 a then 40 else 0)
                   + (if String.eqb "failed" st then 50 else 0)
                   + (if 5 <=? dayofweek_of t then 10 else 0)
                   + (if hour_of t <? 6 then 20 else 0))%Q).
Proof.
  split; [exact transform_two_records_batch|].
  exact (transform_output_risk_score coerce_null coerce_null str_nan
           example_clock ∅ two_records_batch _ _ transform_two_records_batch).
Defined.

Lemma transform_output_calendar_witness :
  transform_transactions coerce_null coerce_null str_nan example_clock ∅
    two_records_batch
  = Ok (example_output two_records_batch, example_report two_records_batch)
  /\ (forall r, r ∈ rows (example_output two_records_batch) ->
        exists t,
          r !!! "transaction_date" = Timestamp t
          /\ r !!! "transaction_year" = Num (inject_Z (year_of t))
          /\ r !!! "transaction_month" = Num (inject_Z (month_of t))
          /\ r !!! "transaction_day" = Num (inject_Z (day_of t))
          /\ r !!! "transaction_dayofweek" = Num (inject_Z (dayofweek_of t))
          /\ r !!! "transaction_hour" = Num (inject_Z (hour_of t))
          /\ r !!! "processed_at" = Timestamp (now_processed example_clock)).
Proof.
  split; [exact transform_two_records_batch|].
  exact (transform_output_calendar coerce_null coerce_null str_nan
           example_clock ∅ two_records_batch _ _ transform_two_records_batch).
Defined.

Example two_records_batch_calendar :
  List.map (fun r : row =>
              [r !!! "transaction_year"; r !!! "transaction_month";
               r !!! "transaction_day"; r !!! "transaction_dayofweek";
               r !!! "transaction_hour"])
    (rows (example_output two_records_batch))
  = [[Num 2024; Num 1; Num 9; Num 1; Num 15];
     [Num 2024; Num 1; Num 11; Num 3; Num 9]].
Proof. by vm_compute. Qed.


Lemma handle_missing_values_exact_witness :
  _handle_missing_values no_merchant_batch
  = Ok (mkDataFrame raw_schema [fill_row no_merchant_record])
  /\ fill_row no_merchant_record !!! "merchant_id" = Str "MERCH0000"
  /\ (forall r' c,
        r' ∈ [fill_row no_merchant_record] ->
        c ∈ ["transaction_id"; "customer_id"; "amount"; "category";
             "merchant_id"] ->
        r' !!! c <> Null).
Proof.
  assert (H : _handle_missing_values no_merchant_batch
              = Ok (mkDataFrame raw_schema [fill_row no_merchant_record]))
    by (by vm_compute).
  split; [exact H|]. split; [by vm_compute|].
  exact (proj2 (proj2 (proj2
           (handle_missing_values_exact no_merchant_batch _ H)))).
Defined.

Lemma transform_output_standardized_witness :
  transform_transactions coerce_null coerce_null str_nan example_clock ∅
    two_records_batch
  = Ok (example_output two_records_batch, example_report two_records_batch)
  /\ (forall r, r ∈ rows (example_output two_records_batch) ->
        (forall c, c ∈ ["transaction_id"; "customer_id"; "merchant_id"] ->
           exists s, r !!! c = Str s /\ upper (strip s) = s)
        /\ (forall c, c ∈ ["status"; "category"; "payment_method"] ->
              exists s, r !!! c = Str s /\ lower (strip s) = s)).
Proof.
  split; [exact transform_two_records_batch|].
  exact (transform_output_standardized coerce_null coerce_null str_nan
           example_clock ∅ two_records_batch _ _ transform_two_records_batch).
Defined.

Lemma two_records_batch_ids_apart :
  forall r1 r2, r1 ∈ rows two_records_batch -> r2 ∈ rows two_records_batch ->
    standardize str_nan upper (r1 !!! "transaction_id")
    = standardize str_nan upper (r2 !!! "transaction_id") ->
    value_eqb (r1 !!! "transaction_id") (r2 !!! "transaction_id") = true.
Proof.
  intros r1 r2 H1 H2. unfold two_records_batch in H1, H2. cbn [rows] in H1, H2.
  apply elem_of_cons in H1 as [->|H1]; [|apply list_elem_of_singleton in H1 as ->];
    (apply elem_of_cons in H2 as [->|H2];
       [|apply list_elem_of_singleton in H2 as ->]);
    vm_compute; first [ reflexivity | discriminate ].
Defined.

Lemma transform_output_unique_ids_witness :
  transform_transactions coerce_null coerce_null str_nan example_clock ∅
    two_records_batch
  = Ok (example_output two_records_batch, example_report two_records_batch)
  /\ is_unique (column_values "transaction_id"
                  (example_output two_records_batch)) = true.
Proof.
  split; [exact transform_two_records_batch|].
  exact (transform_output_unique_ids coerce_null coerce_null str_nan
           example_clock ∅ two_records_batch _ _ transform_two_records_batch
           two_records_batch_ids_apart).
Defined.

Lemma transform_then_validate_witness :
  transform_transactions coerce_null coerce_null str_nan example_clock ∅
    two_records_batch
  = Ok (example_output two_records_batch, example_report two_records_batch)
  /\ validate_against_customers (example_output two_records_batch)
       three_customers
     = Ok (known_customers_of three_customers
             (example_output two_records_batch), three_customers)
  /\ (len (known_customers_of three_customers
             (example_output two_records_batch))
      <= len (example_output two_records_batch))%nat.
Proof.
  assert (H : validate_against_customers (example_output two_records_batch)
                three_customers
              = Ok (known_customers_of three_customers
                      (example_output two_records_batch), three_customers))
    by (by vm_compute).
  split; [exact transform_two_records_batch|]. split; [exact H|].
  exact (proj1 (proj2 (proj2 (proj2
           (transform_then_validate coerce_null coerce_null str_nan
              example_clock ∅ _ two_records_batch three_customers _ _ _
              transform_two_records_batch H))))).
Defined.

Example two_records_batch_validated :
  column_values "transaction_id"
    (known_customers_of three_customers (example_output two_records_batch))
  = [Str "TXN00000002"].
Proof. by vm_compute. Qed.

(** ** The Lambda function *)

Example str_replace_examples :
  str_replace "raw/" "processed/" "raw/2024/raw/a.csv"
  = "processed/2024/processed/a.csv"
  /\ str_replace "raw/" "processed/" "incoming/a.csv" = "incoming/a.csv"
  /\ str_replace "aa" "b" "aaa" = "ba".
Proof. repeat split; reflexivity. Qed.

Example split_on_examples :
  split_on ";" "a;b;" = ["a"; "b"; ""] /\ split_on ";" "" = [""]
  /\ split_on ";" "a;;b" = ["a"; ""; "b"].
Proof. repeat split; reflexivity. Qed.

Lemma prefix_append (p s : string) : String.prefix p (p ++ s) = true.
Proof.
  induction p as [|a p IH]; simpl; [by destruct s|].
  destruct (ascii_dec a a); [exact IH|contradiction].
Qed.

Lemma replace_from_skip (old new p s : string) :
  replace_from old new (String.length p) (p ++ s) = replace_from old new 0 s.
Proof.
  induction p as [|a p IH]; simpl; [|exact IH].
  destruct s; reflexivity.
Qed.

Lemma str_replace_at_start (a : ascii) (old' new s : string) :
  str_replace (String a old') new (String a old' ++ s)%string
  = (new ++ str_replace (String a old') new s)%string.
Proof.
  unfold str_replace.
  change (String a old' ++ s)%string with (String a (old' ++ s)).
  cbn [replace_from].
  change (String a (old' ++ s)) with (String a old' ++ s)%string.
  rewrite prefix_append. f_equal.
  replace (String.length (String a old') - 1)%nat with (String.length old')
    by (simpl; lia).
  apply replace_from_skip.
Qed.

Lemma str_replace_absent (old new s : string) :
  contains old s = false -> str_replace old new s = s.
Proof.
  unfold str_replace. induction s as [|a s IH]; [reflexivity|].
  cbn [contains replace_from]. intros H.
  apply orb_false_iff in H as [Hp Hs]. rewrite Hp, IH by exact Hs.
  reflexivity.
Qed.

Lemma column_values_put (c dst : string) (v : value) (rs : list row) :
  c <> dst ->
  List.map (fun r : row => r !!! c) (List.map (put_row dst v) rs)
  = List.map (fun r : row => r !!! c) rs.
Proof.
  intros H. rewrite map_map. apply map_ext. intros r. unfold put_row.
  by apply lookup_total_insert_ne.
Qed.

Lemma positive_number (v : value) :
  gt_num v 0 = true ->
  (exists a, v = Num a /\ (0 < a)%Q) \/ v = Inf false.
Proof.
  destruct v as [| |q|[]|]; simpl; try discriminate.
  - intros H. left. exists q. split; [reflexivity|by apply Qlt_bool_iff].
  - by right.
Qed.

(** X16. When [process_transactions] returns, the result has the columns
    of the input and [processed_at]; its records are records of the
    input, at most as many, with [processed_at] set to the one reading of
    the clock; no [transaction_id] occurs twice; and every amount is a
    number above 0 or the float infinity: there is no upper bound. *)
Theorem process_transactions_result (now : Z) (df df' : DataFrame) :
  process_transactions now df = Done df' ->
  columns df' = add_label "processed_at" (columns df)
  /\ is_unique (column_values "transaction_id" df') = true
  /\ (len df' <= len df)%nat
  /\ (forall r', r' ∈ rows df' ->
        r' !!! "processed_at" = Timestamp now
        /\ (exists r, r ∈ rows df
                      /\ r' = put_row "processed_at" (Timestamp now) r)
        /\ ((exists a, r' !!! "amount" = Num a /\ (0 < a)%Q)
            \/ r' !!! "amount" = Inf false)).
Proof.
  unfold process_transactions, has_column. cbn [columns rows].
  destruct (in_columns "transaction_id" (columns df)); [|discriminate].
  destruct (in_columns "amount" (columns df)); [|discriminate].
  destruct (existsb not_a_number _); [discriminate|].
  intros [= <-]. unfold assign, column_values, len. cbn [columns rows].
  split; [reflexivity|]. split.
  { rewrite column_values_put by discriminate.
    unfold keep. do 2 apply is_unique_map_filter.
    apply (drop_duplicates_unique (fun r : row => r !!! "transaction_id")). }
  set (key := fun r : row => r !!! "transaction_id").
  split.
  { rewrite length_map. unfold keep.
    etransitivity; [apply filter_length_le|].
    etransitivity; [apply filter_length_le|].
    apply drop_duplicates_length. }
  intros r' Hr'. apply list_elem_of_In, in_map_iff in Hr' as (r & <- & Hr).
  unfold keep in Hr. apply filter_In in Hr as [Hr Hpos].
  apply filter_In in Hr as [Hr _].
  split; [unfold put_row; apply lookup_total_insert_eq|].
  split.
  - exists r. split; [|reflexivity]. apply list_elem_of_In.
    revert Hr. generalize (@nil value).
    induction (rows df) as [|r0 rs IH]; intros seen; simpl; [tauto|].
    destruct (isin seen (key r0)).
    + intros H. right. by apply (IH seen).
    + intros [->|H]; [by left|]. right. by apply (IH (key r0 :: seen)).
  - unfold put_row. rewrite lookup_total_insert_ne by discriminate.
    by apply positive_number.
Qed.

(** X17. [process_transactions] raises a [KeyError] when the frame has no
    [transaction_id] column, or else no [amount] column; with both
    columns it raises a [TypeError] exactly when the amount of one of
    the records left by the deduplication is a string or a datetime, and
    returns otherwise. *)
Theorem process_transactions_errors (now : Z) (df : DataFrame) :
  (has_column "transaction_id" df = false ->
   process_transactions now df = Failed (LambdaKeyError "transaction_id"))
  /\ (has_column "transaction_id" df = true ->
      has_column "amount" df = false ->
      process_transactions now df = Failed (LambdaKeyError "amount"))
  /\ (has_column "transaction_id" df = true ->
      has_column "amount" df = true ->
      let firsts :=
        drop_duplicates (fun r => r !!! "transaction_id") [] (rows df) in
      (process_transactions now df = Failed LambdaTypeError
       <-> exists r, r ∈ firsts /\ not_a_number (r !!! "amount") = true)
      /\ ((forall r, r ∈ firsts -> not_a_number (r !!! "amount") = false) ->
          exists df', process_transactions now df = Done df')).
Proof.
  unfold process_transactions, has_column. cbn [columns rows].
  split; [by intros ->|]. split; [by intros -> ->|].
  intros -> ->.
  set (firsts :=
         drop_duplicates (fun r : row => r !!! "transaction_id") [] (rows df)).
  unfold column_values. cbn [rows].
  assert (Hex : existsb not_a_number
                  (List.map (fun r : row => r !!! "amount")
                     (keep "amount" notna firsts)) = true
                <-> exists r, r ∈ firsts /\ not_a_number (r !!! "amount") = true).
  { rewrite existsb_exists. split.
    - intros (v & Hv & Hn). apply in_map_iff in Hv as (r & <- & Hr).
      unfold keep in Hr. apply filter_In in Hr as [Hr _].
      exists r. split; [by apply list_elem_of_In|exact Hn].
    - intros (r & Hr & Hn). exists (r !!! "amount"). split; [|exact Hn].
      apply in_map. unfold keep. apply filter_In.
      split; [by apply list_elem_of_In|]. by destruct (r !!! "amount"). }
  split.
  - rewrite <- Hex. destruct (existsb not_a_number _); split; congruence.
  - intros Hall. destruct (existsb not_a_number _) eqn:E; [|eauto].
    destruct (proj1 Hex eq_refl) as (r & Hr & Hn).
    rewrite (Hall r Hr) in Hn. discriminate.
Qed.

Section LambdaHandlerFacts.

Variable read_csv : string -> attempt DataFrame.
Variable to_csv : DataFrame -> string.

(** What a call that answers 200 has done. *)
Lemma lambda_handler_success now s3 event :
  statusCode (fst (lambda_handler read_csv to_csv now s3 event)) = 200 ->
  exists record rest content df processed,
    event = record :: rest
    /\ s3 !! (bucket_name record, object_key record) = Some content
    /\ read_csv content = Done df
    /\ (0 < len df)%nat
    /\ process_transactions now df = Done processed
    /\ lambda_handler read_csv to_csv now s3 event
       = (mkResponse 200
            (ProcessingSuccessful (len processed)
               (str_replace "raw/" "processed/" (object_key record))),
          <[(bucket_name record,
             str_replace "raw/" "processed/" (object_key record))
            := to_csv processed]> s3).
Proof.
  unfold lambda_handler. destruct event as [|record rest]; [discriminate|].
  simpl. destruct (s3 !! (bucket_name record, object_key record))
    as [content|] eqn:Eobj; [|discriminate].
  simpl. destruct (read_csv content) as [df|] eqn:Ecsv; [|discriminate].
  simpl. destruct (Nat.eqb_spec (len df) 0) as [|Hlen]; [discriminate|].
  destruct (process_transactions now df) as [processed|] eqn:Eproc;
    [|discriminate].
  simpl. intros _. exists record, rest, content, df, processed.
  repeat split; try reflexivity; try assumption. lia.
Qed.

(** What a call does when every step goes through. *)
Lemma lambda_handler_run now s3 record rest content df processed :
  s3 !! (bucket_name record, object_key record) = Some content ->
  read_csv content = Done df ->
  len df <> 0%nat ->
  process_transactions now df = Done processed ->
  lambda_handler read_csv to_csv now s3 (record :: rest)
  = (mkResponse 200
       (ProcessingSuccessful (len processed)
          (str_replace "raw/" "processed/" (object_key record))),
     <[(bucket_name record,
        str_replace "raw/" "processed/" (object_key record))
       := to_csv processed]> s3).
Proof.
  intros Hobj Hcsv Hlen Hproc. unfold lambda_handler. simpl.
  rewrite Hobj. simpl. rewrite Hcsv. simpl.
  destruct (Nat.eqb_spec (len df) 0) as [Hz|_]; [by destruct Hlen|].
  by rewrite Hproc.
Qed.

(** X18. [lambda_handler] always answers, with status 200, 400 or 500.
    It writes to S3 only when it answers 200: then it has read the object
    named by the first record of the event, parsed it to a frame with at
    least one row, and stored the CSV of the processed frame, whose row
    count it reports and which is not longer than the parsed one, under
    the key with ['raw/'] replaced by ['processed/'] in the same bucket,
    leaving every other object as it was.  It answers 400 exactly when
    the object parses to a frame without rows. *)
Theorem lambda_handler_answers now s3 event :
  let answer := lambda_handler read_csv to_csv now s3 event in
  (statusCode (fst answer) = 200 \/ statusCode (fst answer) = 400
   \/ statusCode (fst answer) = 500)
  /\ (statusCode (fst answer) <> 200 -> snd answer = s3)
  /\ (statusCode (fst answer) = 200 ->
      exists record rest content df processed,
        event = record :: rest
        /\ s3 !! (bucket_name record, object_key record) = Some content
        /\ read_csv content = Done df
        /\ process_transactions now df = Done processed
        /\ (0 < len df)%nat /\ (len processed <= len df)%nat
        /\ body (fst answer)
           = ProcessingSuccessful (len processed)
               (str_replace "raw/" "processed/" (object_key record))
        /\ snd answer
           = <[(bucket_name record,
                str_replace "raw/" "processed/" (object_key record))
               := to_csv processed]> s3)
  /\ (statusCode (fst answer) = 400 <->
      exists record rest content df,
        event = record :: rest
        /\ s3 !! (bucket_name record, object_key record) = Some content
        /\ read_csv content = Done df /\ len df = 0%nat).
Proof.
  intros answer. split; [|split; [|split]].
  - subst answer. unfold lambda_handler.
    destruct event as [|record rest]; simpl; [tauto|].
    destruct (s3 !! _); simpl; [|tauto].
    destruct (read_csv _) as [df|]; simpl; [|tauto].
    destruct (len df =? 0)%nat; simpl; [tauto|].
    destruct (process_transactions now df); simpl; tauto.
  - subst answer. unfold lambda_handler.
    destruct event as [|record rest]; simpl; [reflexivity|].
    destruct (s3 !! _); simpl; [|reflexivity].
    destruct (read_csv _) as [df|]; simpl; [|reflexivity].
    destruct (len df =? 0)%nat; simpl; [reflexivity|].
    destruct (process_transactions now df); simpl; [|reflexivity].
    intros H. by destruct H.
  - intros H200.
    destruct (lambda_handler_success now s3 event H200)
      as (record & rest & content & df & processed
          & -> & Hobj & Hcsv & Hlen & Hproc & Heq).
    exists record, rest, content, df, processed. subst answer.
    rewrite Heq. cbn [fst snd body].
    repeat split; try reflexivity; try assumption.
    by destruct (process_transactions_result now df processed Hproc)
      as (_ & _ & Hle & _).
  - subst answer. unfold lambda_handler. split.
    + destruct event as [|record rest]; [discriminate|]. simpl.
      destruct (s3 !! (bucket_name record, object_key record))
        as [content|] eqn:Eobj; [|discriminate].
      simpl. destruct (read_csv content) as [df|] eqn:Ecsv; [|discriminate].
      simpl. destruct (Nat.eqb_spec (len df) 0) as [Hz|Hnz].
      * intros _. by exists record, rest, content, df.
      * destruct (process_transactions now df); discriminate.
    + intros (record & rest & content & df & -> & Hobj & Hcsv & Hz).
      simpl. rewrite Hobj. simpl. rewrite Hcsv. simpl. by rewrite Hz.
Qed.

(** X19. When the key of the uploaded object does not contain ['raw/'],
    a call that answers 200 has stored the processed CSV under that very
    key: the uploaded object is overwritten. *)
Theorem lambda_handler_overwrites_input now s3 record rest :
  contains "raw/" (object_key record) = false ->
  statusCode (fst (lambda_handler read_csv to_csv now s3 (record :: rest)))
  = 200 ->
  exists content processed,
    s3 !! (bucket_name record, object_key record) = Some content
    /\ body (fst (lambda_handler read_csv to_csv now s3 (record :: rest)))
       = ProcessingSuccessful (len processed) (object_key record)
    /\ snd (lambda_handler read_csv to_csv now s3 (record :: rest))
       !! (bucket_name record, object_key record)
       = Some (to_csv processed).
Proof.
  intros Hkey H200.
  destruct (lambda_handler_success now s3 _ H200)
    as (record' & rest' & content & df & processed
        & [= <- <-] & Hobj & _ & _ & _ & Heq).
  rewrite Heq, (str_replace_absent _ _ _ Hkey). cbn [fst snd body].
  exists content, processed. split; [exact Hobj|]. split; [reflexivity|].
  apply lookup_insert_eq.
Qed.

(** X20. When the key is ['raw/'] followed by a name without ['raw/'],
    a call that answers 200 has stored the processed CSV under
    ['processed/'] followed by that name, and the uploaded object is
    still there as it was. *)
Theorem lambda_handler_output_key now s3 record rest name :
  object_key record = ("raw/" ++ name)%string ->
  contains "raw/" name = false ->
  statusCode (fst (lambda_handler read_csv to_csv now s3 (record :: rest)))
  = 200 ->
  exists processed,
    body (fst (lambda_handler read_csv to_csv now s3 (record :: rest)))
    = ProcessingSuccessful (len processed) ("processed/" ++ name)%string
    /\ snd (lambda_handler read_csv to_csv now s3 (record :: rest))
       !! (bucket_name record, ("processed/" ++ name)%string)
       = Some (to_csv processed)
    /\ snd (lambda_handler read_csv to_csv now s3 (record :: rest))
       !! (bucket_name record, object_key record)
       = s3 !! (bucket_name record, object_key record).
Proof.
  intros Hkey Hname H200.
  destruct (lambda_handler_success now s3 _ H200)
    as (record' & rest' & content & df & processed
        & [= <- <-] & Hobj & _ & _ & _ & Heq).
  rewrite Heq, Hkey.
  change ("raw/" ++ name)%string with (String "r" "aw/" ++ name)%string.
  rewrite str_replace_at_start, (str_replace_absent _ _ _ Hname).
  cbn [fst snd body]. exists processed. split; [reflexivity|].
  split; [apply lookup_insert_eq|].
  apply lookup_insert_ne. intros H. simpl in H. discriminate H.
Qed.

End LambdaHandlerFacts.

(** ** The summary query *)

Lemma split_on_nonempty sep s : split_on sep s <> [].
Proof.
  destruct s as [|a s]; simpl; [discriminate|].
  destruct (Ascii.eqb a sep); [discriminate|].
  destruct (split_on sep s); discriminate.
Qed.

Lemma split_on_app sep x y :
  split_on sep (x ++ String sep y)%string
  = (split_on sep x ++ split_on sep y)%list.
Proof.
  induction x as [|a x IH]; simpl.
  - by rewrite Ascii.eqb_refl.
  - rewrite IH. destruct (Ascii.eqb a sep); [reflexivity|].
    pose proof (split_on_nonempty sep x) as Hne.
    destruct (split_on sep x) as [|part parts]; [by destruct Hne|].
    reflexivity.
Qed.

Lemma split_on_absent sep s : has_char sep s = false -> split_on sep s = [s].
Proof.
  induction s as [|a s IH]; simpl; [reflexivity|].
  intros H. apply orb_false_iff in H as [Ha Hs].
  by rewrite Ha, (IH Hs).
Qed.

Lemma split_on_length sep s :
  has_char sep s = true -> (2 <= length (split_on sep s))%nat.
Proof.
  induction s as [|a s IH]; simpl; [discriminate|].
  destruct (Ascii.eqb a sep); simpl.
  - intros _. pose proof (split_on_nonempty sep s).
    destruct (split_on sep s); simpl; [done|lia].
  - intros H. specialize (IH H).
    destruct (split_on sep s); simpl in *; lia.
Qed.

Lemma second_to_last_None (queries : list string) :
  second_to_last queries = None <-> (length queries < 2)%nat.
Proof.
  unfold second_to_last. rewrite <- (length_rev queries).
  destruct (rev queries) as [|q1 [|q2 l]]; simpl; split;
    try discriminate; try lia; reflexivity.
Qed.

(** X21. Taking the summary query out of a script fails (the
    [IndexError] of [queries[-2]]) exactly when the script contains no
    semicolon. *)
Theorem summary_query_fails_iff (sql_script : string) :
  summary_query sql_script = None <-> has_char ";" sql_script = false.
Proof.
  unfold summary_query. rewrite second_to_last_None. split.
  - intros Hlen. destruct (has_char ";" sql_script) eqn:E; [|reflexivity].
    apply split_on_length in E. lia.
  - intros H. rewrite (split_on_absent _ _ H). simpl. lia.
Qed.

(** X22. The summary query is the text between the last two semicolons
    of the script, or the text before its only semicolon; what follows
    the last semicolon is never taken.  So the last statement of a script
    is the summary query only if a semicolon closes it. *)
Theorem summary_query_between_last_semicolons (pre q tail : string) :
  has_char ";" q = false ->
  has_char ";" tail = false ->
  summary_query (q ++ ";" ++ tail) = Some q
  /\ summary_query (pre ++ ";" ++ q ++ ";" ++ tail) = Some q.
Proof.
  intros Hq Htail. unfold summary_query.
  change (";" ++ tail)%string with (String ";" tail).
  change (";" ++ q ++ String ";" tail)%string
    with (String ";" (q ++ String ";" tail)).
  rewrite !split_on_app, (split_on_absent _ _ Hq),
    (split_on_absent _ _ Htail).
  split; [reflexivity|].
  unfold second_to_last. by rewrite !rev_app_distr.
Qed.

(** ** Instances *)

Lemma process_two_records_batch :
  process_transactions example_now two_records_batch
  = Done two_records_processed.
Proof. by vm_compute. Qed.

Lemma process_transactions_result_witness :
  process_transactions example_now two_records_batch
  = Done two_records_processed
  /\ (columns two_records_processed
      = add_label "processed_at" (columns two_records_batch)
      /\ is_unique (column_values "transaction_id" two_records_processed)
         = true
      /\ (len two_records_processed <= len two_records_batch)%nat
      /\ (forall r', r' ∈ rows two_records_processed ->
            r' !!! "processed_at" = Timestamp example_now
            /\ (exists r, r ∈ rows two_records_batch
                  /\ r' = put_row "processed_at" (Timestamp example_now) r)
            /\ ((exists a, r' !!! "amount" = Num a /\ (0 < a)%Q)
                \/ r' !!! "amount" = Inf false))).
Proof.
  split; [exact process_two_records_batch|].
  exact (process_transactions_result example_now two_records_batch
           two_records_processed process_two_records_batch).
Defined.

Lemma no_amount_batch_columns :
  has_column "transaction_id" no_amount_batch = true
  /\ has_column "amount" no_amount_batch = false.
Proof. by vm_compute. Qed.

Lemma text_amount_batch_columns :
  has_column "transaction_id" text_amount_batch = true
  /\ has_column "amount" text_amount_batch = true.
Proof. by vm_compute. Qed.

Lemma process_transactions_errors_witness :
  process_transactions example_now no_amount_batch
  = Failed (LambdaKeyError "amount")
  /\ process_transactions example_now text_amount_batch
     = Failed LambdaTypeError.
Proof.
  split.
  - exact (proj1 (proj2 (process_transactions_errors example_now
                           no_amount_batch))
             (proj1 no_amount_batch_columns)
             (proj2 no_amount_batch_columns)).
  - apply (proj2 (proj1 (proj2 (proj2 (process_transactions_errors
                                         example_now text_amount_batch))
                           (proj1 text_amount_batch_columns)
                           (proj2 text_amount_batch_columns)))).
    exists text_amount_record. split; [|reflexivity].
    apply list_elem_of_In.
    apply (drop_duplicates_first _ [] [uppercase_id_record]
             text_amount_record []); [reflexivity|].
    intros p [].
Defined.

Lemma raw_upload_object :
  example_s3 !! (bucket_name raw_upload, object_key raw_upload)
  = Some "two records".
Proof. apply lookup_insert_eq. Qed.

Lemma plain_upload_object :
  example_s3 !! (bucket_name plain_upload, object_key plain_upload)
  = Some "two records".
Proof.
  unfold example_s3, plain_upload. cbn [bucket_name object_key].
  rewrite lookup_insert_ne by (intros H; simplify_eq).
  apply lookup_insert_eq.
Qed.

Lemma two_records_batch_len : len two_records_batch <> 0%nat.
Proof. discriminate. Qed.

Lemma raw_upload_status :
  statusCode
    (fst (lambda_handler example_read_csv example_to_csv example_now
            example_s3 [raw_upload]))
  = 200.
Proof.
  by rewrite (lambda_handler_run _ _ _ _ _ _ _ _ _ raw_upload_object
                eq_refl two_records_batch_len process_two_records_batch).
Qed.

Lemma plain_upload_status :
  statusCode
    (fst (lambda_handler example_read_csv example_to_csv example_now
            example_s3 [plain_upload]))
  = 200.
Proof.
  by rewrite (lambda_handler_run _ _ _ _ _ _ _ _ _ plain_upload_object
                eq_refl two_records_batch_len process_two_records_batch).
Qed.

Lemma lambda_handler_answers_witness :
  statusCode
    (fst (lambda_handler example_read_csv example_to_csv example_now
            example_s3 [raw_upload]))
  = 200
  /\ exists processed,
       process_transactions example_now two_records_batch = Done processed
       /\ snd (lambda_handler example_read_csv example_to_csv example_now
                 example_s3 [raw_upload])
          = <[("bank", "processed/day1.csv") := example_to_csv processed]>
              example_s3.
Proof.
  split; [exact raw_upload_status|].
  destruct (proj1 (proj2 (proj2 (lambda_handler_answers example_read_csv
                                   example_to_csv example_now example_s3
                                   [raw_upload]))) raw_upload_status)
    as (record & rest & content & df & processed
        & Hevent & Hobj & Hcsv & Hproc & _ & _ & _ & Hs3).
  injection Hevent as <- <-.
  assert (content = "two records") as ->
      by (rewrite raw_upload_object in Hobj; congruence).
  assert (df = two_records_batch) as -> by (injection Hcsv; congruence).
  exists processed. split; [exact Hproc|]. exact Hs3.
Defined.

Lemma lambda_handler_overwrites_input_witness :
  contains "raw/" (object_key plain_upload) = false
  /\ exists content processed,
       example_s3 !! (bucket_name plain_upload, object_key plain_upload)
       = Some content
       /\ body (fst (lambda_handler example_read_csv example_to_csv
                       example_now example_s3 [plain_upload]))
          = ProcessingSuccessful (len processed) (object_key plain_upload)
       /\ snd (lambda_handler example_read_csv example_to_csv example_now
                 example_s3 [plain_upload])
          !! (bucket_name plain_upload, object_key plain_upload)
          = Some (example_to_csv processed).
Proof.
  split; [reflexivity|].
  exact (lambda_handler_overwrites_input example_read_csv example_to_csv
           example_now example_s3 plain_upload [] eq_refl
           plain_upload_status).
Defined.

Lemma lambda_handler_output_key_witness :
  contains "raw/" "day1.csv" = false
  /\ exists processed,
       body (fst (lambda_handler example_read_csv example_to_csv
                    example_now example_s3 [raw_upload]))
       = ProcessingSuccessful (len processed) "processed/day1.csv"
       /\ snd (lambda_handler example_read_csv example_to_csv example_now
                 example_s3 [raw_upload])
          !! (bucket_name raw_upload, "processed/day1.csv")
          = Some (example_to_csv processed)
       /\ snd (lambda_handler example_read_csv example_to_csv example_now
                 example_s3 [raw_upload])
          !! (bucket_name raw_upload, object_key raw_upload)
          = example_s3 !! (bucket_name raw_upload, object_key raw_upload).
Proof.
  split; [reflexivity|].
  exact (lambda_handler_output_key example_read_csv example_to_csv
           example_now example_s3 raw_upload [] "day1.csv" eq_refl eq_refl
           raw_upload_status).
Defined.

Lemma summary_query_between_last_semicolons_witness :
  has_char ";" " SELECT COUNT(*) FROM fact_transactions" = false
  /\ has_char ";" " -- end" = false
  /\ summary_query
       ("DELETE FROM staging; SELECT COUNT(*) FROM fact_transactions; -- end")
     = Some " SELECT COUNT(*) FROM fact_transactions".
Proof.
  split; [reflexivity|]. split; [reflexivity|].
  exact (proj2 (summary_query_between_last_semicolons
                  "DELETE FROM staging"
                  " SELECT COUNT(*) FROM fact_transactions" " -- end"
                  eq_refl eq_refl)).
Defined.
